(** * BitTorrent-Me: the download lifecycle engine, embedded and verified

    The repository holds the same engine twice: a monolithic version
    ([app.py]) and a layered one ([src/services], [src/models],
    [src/core]).  Both are embedded here, each function under the name it
    has in the source, the layered classes as modules and the monolithic
    file under the module [App].

    Conventions of the embedding:
    - Python [int] is [Z]; [bytes] is [list byte]; [str] is [string].
    - [set] of piece indices is [gset Z]; [dict] keyed by strings is
      [gmap string _].
    - Python [float] values (progress, speed) are exact rationals [Q].
    - A function whose body is wrapped in [try/except Exception] and
      answers [None]/[False] on failure returns [option]/[bool] here.
    - The outside world (SHA-1 of the encoded info dictionary, generated
      file content, which paths can be written, when a stop request
      arrives) enters as Section variables or explicit arguments. *)

From Stdlib Require Import ZArith QArith List String Ascii Lia.
From Stdlib.Strings Require Import Byte.
From stdpp Require Import base option list list_numbers strings gmap.

Local Open Scope Z_scope.

(** ** Python built-ins used by the engine *)

Module Py.

(** [sum(xs)]: left fold from 0. *)
Definition sum (xs : list Z) : Z := foldl Z.add 0 xs.

(** The integer nearest to [n / d], ties to the even one ([0 < d]). *)
Definition round_half_even (n d : Z) : Z :=
  let q := n / d in
  let r := n mod d in
  if decide (2 * r < d) then q
  else if decide (d < 2 * r) then q + 1
  else if Z.even q then q else q + 1.

(** The [e] with [2^e <= n / d < 2^(e+1)], for positive [n] and [d]. *)
Definition quotient_exponent (n d : Z) : Z :=
  let e := Z.log2 n - Z.log2 d in
  if decide (d * 2 ^ Z.max 0 e ≤ n * 2 ^ Z.max 0 (- e)) then e else e - 1.

(** [math.ceil(a / b)] for two [int]s.  [a / b] raises
    [ZeroDivisionError] for [b = 0]; otherwise it is the binary64 number
    nearest to the quotient, ties to even ([long_true_divide] rounds the
    exact quotient once): a mantissa [m] of at most 53 bits times [2^s],
    with [s] no less than -1074, and [OverflowError] from [2^1024] on.
    [math.ceil] then gives the least integer that is no less than that
    number.  [None] is either exception. *)
Definition math_ceil_div (a b : Z) : option Z :=
  if decide (b = 0) then None
  else if decide (a = 0) then Some 0
  else
    let n := Z.abs a in
    let d := Z.abs b in
    let s := Z.max (quotient_exponent n d - 52) (-1074) in
    let m := round_half_even (n * 2 ^ Z.max 0 (- s)) (d * 2 ^ Z.max 0 s) in
    if decide (2 ^ 1024 ≤ m * 2 ^ Z.max 0 s) then None
    else if bool_decide (0 < a ↔ 0 < b)
    then Some (if decide (0 ≤ s) then m * 2 ^ s else - ((- m) / 2 ^ (- s)))
    else Some (if decide (0 ≤ s) then - (m * 2 ^ s) else - (m / 2 ^ (- s))).

(** Index normalisation of a slice bound against a sequence of length [n]. *)
Definition slice_index (n i : Z) : Z :=
  if decide (i < 0) then Z.max 0 (i + n) else Z.min i n.

(** [l[a:b]]: never raises, clamps both bounds. *)
Definition slice {A} (l : list A) (a b : Z) : list A :=
  let n := Z.of_nat (List.length l) in
  let a' := slice_index n a in
  let b' := slice_index n b in
  take (Z.to_nat (b' - a')) (drop (Z.to_nat a') l).

(** [sep.join(parts)]. *)
Definition join (sep : string) (parts : list string) : string :=
  String.concat sep parts.

(** [s.split(sep)] for a one-character separator: always at least one part. *)
Fixpoint split (sep : ascii) (s : string) : list string :=
  match s with
  | EmptyString => [EmptyString]
  | String c rest =>
      if decide (c = sep) then EmptyString :: split sep rest
      else match split sep rest with
           | [] => [String c EmptyString]
           | p :: ps => String c p :: ps
           end
  end.

Definition hex_digit (n : N) : ascii :=
  match n with
  | 0%N => "0" | 1%N => "1" | 2%N => "2" | 3%N => "3" | 4%N => "4"
  | 5%N => "5" | 6%N => "6" | 7%N => "7" | 8%N => "8" | 9%N => "9"
  | 10%N => "a" | 11%N => "b" | 12%N => "c" | 13%N => "d" | 14%N => "e"
  | _ => "f"
  end%char.

(** [bs.hex()]. *)
Fixpoint hex (bs : list byte) : string :=
  match bs with
  | [] => EmptyString
  | b :: rest =>
      let n := Byte.to_N b in
      String (hex_digit (n / 16)) (String (hex_digit (n mod 16)) (hex rest))
  end.

(** [s[:n]] on a string. *)
Fixpoint str_take (n : nat) (s : string) : string :=
  match n, s with
  | S k, String c rest => String c (str_take k rest)
  | _, _ => EmptyString
  end.

(** [range(0, stop, step)] for a positive step: [0, step, 2*step, ...]
    below [stop]. *)
Definition range_step (stop step : Z) : list Z :=
  (λ k, k * step) <$> seqZ 0 (- ((- stop) / step)).

(** The value of one hexadecimal digit, either case. *)
Definition hex_value (c : ascii) : option N :=
  let n := N_of_ascii c in
  if (48 <=? n)%N && (n <=? 57)%N then Some (n - 48)%N
  else if (97 <=? n)%N && (n <=? 102)%N then Some (n - 87)%N
  else if (65 <=? n)%N && (n <=? 70)%N then Some (n - 55)%N
  else None.

(** ASCII whitespace, which [bytes.fromhex] passes over between bytes. *)
Definition is_space (c : ascii) : bool :=
  let n := N_of_ascii c in
  (n =? 32)%N || ((9 <=? n)%N && (n <=? 13)%N).

(** [bytes.fromhex(s)]: two digits per byte; [None] is [ValueError]. *)
Fixpoint fromhex (s : string) : option (list byte) :=
  match s with
  | EmptyString => Some []
  | String c rest =>
      if is_space c then fromhex rest
      else
        match rest with
        | EmptyString => None
        | String c' rest' =>
            hi ← hex_value c;
            lo ← hex_value c';
            b ← Byte.of_N (hi * 16 + lo);
            bs ← fromhex rest';
            Some (b :: bs)
        end
  end.

End Py.

(** ** [src/models/torrent.py] (and the same dataclasses of [app.py]) *)

Module TorrentFile.
Record t := mk {
  path : string;
  length : Z;
  offset : Z;
  downloaded : bool;
  selected : bool
}.
(** The dataclass defaults: [offset=0], [downloaded=False], [selected=True]. *)
Definition new (path : string) (length offset : Z) : t :=
  mk path length offset false true.
Definition set_selected (b : bool) (f : t) : t :=
  mk (path f) (length f) (offset f) (downloaded f) b.
Definition set_downloaded (b : bool) (f : t) : t :=
  mk (path f) (length f) (offset f) b (selected f).
End TorrentFile.

Module Piece.
Record t := mk {
  index : Z;
  size : Z;
  hash : list byte;
  data : option (list byte);
  downloaded : bool
}.
(** The dataclass defaults: [data=None], [downloaded=False]. *)
Definition new (index size : Z) (hash : list byte) : t :=
  mk index size hash None false.

(** The dictionary [to_dict] builds, as it comes back from JSON:
    [downloaded] is read with [get('downloaded', False)]. *)
Record dict := mkdict {
  dict_index : Z;
  dict_size : Z;
  dict_hash : string;
  dict_downloaded : option bool
}.

(** [to_dict]: the hash in hexadecimal, [data] left out. *)
Definition to_dict (p : t) : dict :=
  mkdict (index p) (size p) (Py.hex (hash p)) (Some (downloaded p)).

(** The [Piece(...)] call of [load_downloads] on such a dictionary;
    [None] is the [ValueError] of [bytes.fromhex]. *)
Definition of_dict (piece_info : dict) : option t :=
  h ← Py.fromhex (dict_hash piece_info);
  Some (mk (dict_index piece_info) (dict_size piece_info) h None
          (default false (dict_downloaded piece_info))).
End Piece.

Module TorrentInfo.
Record t := mk {
  name : string;
  total_size : Z;
  piece_length : Z;
  pieces : list Piece.t;
  files : list TorrentFile.t;
  is_multi_file : bool;
  info_hash : list byte
}.
End TorrentInfo.

(** ** The decoded torrent metadata

    What [bencodepy.decode] hands to the parser: a dictionary whose [info]
    entry is a dictionary with the keys below.  A key that may be absent
    is an [option]; indexing an absent key raises [KeyError]. *)

Module FileDict.
(** One entry of [info[b'files']]: [{b'path': [...], b'length': n}]. *)
Record t := mk { path : list string; length : Z }.
End FileDict.

Module InfoDict.
Record t := mk {
  piece_length : option Z;
  pieces : option (list byte);
  files : option (list FileDict.t);
  length : option Z;
  name : option string
}.
End InfoDict.

Module Metainfo.
Record t := mk { info : option InfoDict.t }.
End Metainfo.


(** ** [src/services/torrent_service.py] *)

Module TorrentService.

(** The piece loop of [parse_torrent], lines 54-64:
    [for i in range(num_pieces)], hash slice at [i * 20], size clamped by
    [min].  [BitTorrentClient.parse_torrent] of [app.py] (lines 866-877)
    has the same loop, statement for statement. *)
Definition make_pieces (num_pieces piece_length total_size : Z)
    (pieces_hash : list byte) : list Piece.t :=
  (λ i,
     let start := i * 20 in
     let piece_hash := Py.slice pieces_hash start (start + 20) in
     let piece_size := Z.min piece_length (total_size - i * piece_length) in
     Piece.new i piece_size piece_hash) <$> seqZ 0 num_pieces.

(** The file loop of [parse_torrent], lines 69-82, with its running
    [offset] and the list it appends to.  [path_parts[0]] raises
    [IndexError] on an empty path; the segments are taken as already
    decoded.  [Download.add_files] has the same loop. *)
Fixpoint files_loop (files_info : list FileDict.t) (offset : Z)
    (files : list TorrentFile.t) : option (list TorrentFile.t) :=
  match files_info with
  | [] => Some files
  | file_info :: rest =>
      _ ← head (FileDict.path file_info);
      let file_path := Py.join "/" (FileDict.path file_info) in
      files_loop rest (offset + FileDict.length file_info)
        (files ++ [TorrentFile.new file_path (FileDict.length file_info) offset])
  end.

Section WithHash.

(** [hashlib.sha1(bencodepy.encode(info)).digest()]. *)
Variable sha1_bencode : InfoDict.t → list byte.

(** [parse_torrent]: [None] is the answer of the [except Exception]
    handler.  [stem] is [torrent_file.stem], the fallback name. *)
Definition parse_torrent (stem : string) (torrent_data : Metainfo.t)
    : option TorrentInfo.t :=
  info_dict ← Metainfo.info torrent_data;
  let info_hash := sha1_bencode info_dict in
  piece_length ← InfoDict.piece_length info_dict;
  pieces_hash ← InfoDict.pieces info_dict;
  let is_multi_file :=
    match InfoDict.files info_dict with Some _ => true | None => false end in
  '(total_size, name) ←
    match InfoDict.files info_dict with
    | Some files_info =>
        Some (Py.sum (FileDict.length <$> files_info),
              default "multi_file_torrent"%string (InfoDict.name info_dict))
    | None =>
        total_size ← InfoDict.length info_dict;
        Some (total_size, default stem (InfoDict.name info_dict))
    end;
  num_pieces ← Py.math_ceil_div total_size piece_length;
  let pieces := make_pieces num_pieces piece_length total_size pieces_hash in
  files ←
    match InfoDict.files info_dict with
    | Some files_info => files_loop files_info 0 []
    | None => Some []
    end;
  Some (TorrentInfo.mk name total_size piece_length pieces files
          is_multi_file info_hash).

(** [get_torrent_id]: [info_hash.hex()[:16]]. *)
Definition get_torrent_id (torrent_info : TorrentInfo.t) : string :=
  Py.str_take 16 (Py.hex (TorrentInfo.info_hash torrent_info)).

End WithHash.

(** [validate_torrent_file]: presence of the required keys only. *)
Definition validate_torrent_file (data : Metainfo.t) : bool :=
  match Metainfo.info data with
  | None => false
  | Some info =>
      if bool_decide (InfoDict.piece_length info = None ∨ InfoDict.pieces info = None)
      then false
      else if bool_decide (InfoDict.name info = None) then false
      else if bool_decide (InfoDict.length info = None ∧ InfoDict.files info = None)
      then false
      else true
  end.

End TorrentService.


(** ** [src/models/api.py]: [DownloadSettings] *)

Module DownloadSettings.
Record t := mk {
  speed_limit : Z;
  upload_limit : Z;
  max_peers : Z;
  max_connections : Z;
  piece_timeout : Z;
  request_timeout : Z;
  auto_stop : bool;
  sequential_download : bool;
  verify_pieces : bool;
  pre_allocate : bool;
  (** only in [app.py] *)
  simulation_delay : Q
}.
(** The pydantic field defaults. *)
Definition default : t :=
  mk 0 0 50 100 30 60 true false true true (1 # 10000)%Q.
End DownloadSettings.

(** ** The files on disk

    [state.json] of one download, as [json.load] returns it: a dictionary
    read with [state.get(key, default)], so every entry may be absent.
    The [timestamp] entry is written and never read back; it is left
    out.  The disk maps the path of a state file to its content. *)

Module StateJson.
Record t := mk {
  downloaded_pieces : option (list Z);
  downloaded_size : option Z;
  completed : option bool;
  file_selections : option (gmap string bool)
}.
End StateJson.

Module Path.
(** [a / b] of [pathlib]. *)
Definition join (a b : string) : string := a +:+ "/" +:+ b.
End Path.

(** ** [src/models/download.py] *)

Module Download.

(** The four state classes, as the tag a [Download] carries in [state]. *)
Inductive DownloadState :=
  | StoppedState
  | DownloadingState
  | PausedState
  | CompletedState.

Definition get_name (s : DownloadState) : string :=
  match s with
  | StoppedState => "stopped"
  | DownloadingState => "downloading"
  | PausedState => "paused"
  | CompletedState => "completed"
  end.

Record t := mk {
  torrent_id : string;
  name : string;
  total_size : Z;
  pieces : list Piece.t;
  download_dir : string;
  settings : DownloadSettings.t;
  is_multi_file : bool;
  files : list TorrentFile.t;
  downloading : bool;
  paused : bool;
  download_progress : Q;
  download_speed : Q;
  upload_speed : Q;
  downloaded_size : Z;
  start_time : option Q;
  completed : bool;
  downloaded_pieces : gset Z;
  download_folder : string;
  state_file : string;
  state : DownloadState
}.

Definition set_pieces (v : list Piece.t) (d : t) : t :=
  mk (torrent_id d) (name d) (total_size d) v (download_dir d) (settings d)
    (is_multi_file d) (files d) (downloading d) (paused d)
    (download_progress d) (download_speed d) (upload_speed d)
    (downloaded_size d) (start_time d) (completed d) (downloaded_pieces d)
    (download_folder d) (state_file d) (state d).
Definition set_settings (v : DownloadSettings.t) (d : t) : t :=
  mk (torrent_id d) (name d) (total_size d) (pieces d) (download_dir d) v
    (is_multi_file d) (files d) (downloading d) (paused d)
    (download_progress d) (download_speed d) (upload_speed d)
    (downloaded_size d) (start_time d) (completed d) (downloaded_pieces d)
    (download_folder d) (state_file d) (state d).
Definition set_files (v : list TorrentFile.t) (d : t) : t :=
  mk (torrent_id d) (name d) (total_size d) (pieces d) (download_dir d)
    (settings d) (is_multi_file d) v (downloading d) (paused d)
    (download_progress d) (download_speed d) (upload_speed d)
    (downloaded_size d) (start_time d) (completed d) (downloaded_pieces d)
    (download_folder d) (state_file d) (state d).
Definition set_downloading (v : bool) (d : t) : t :=
  mk (torrent_id d) (name d) (total_size d) (pieces d) (download_dir d)
    (settings d) (is_multi_file d) (files d) v (paused d)
    (download_progress d) (download_speed d) (upload_speed d)
    (downloaded_size d) (start_time d) (completed d) (downloaded_pieces d)
    (download_folder d) (state_file d) (state d).
Definition set_paused (v : bool) (d : t) : t :=
  mk (torrent_id d) (name d) (total_size d) (pieces d) (download_dir d)
    (settings d) (is_multi_file d) (files d) (downloading d) v
    (download_progress d) (download_speed d) (upload_speed d)
    (downloaded_size d) (start_time d) (completed d) (downloaded_pieces d)
    (download_folder d) (state_file d) (state d).
Definition set_download_progress (v : Q) (d : t) : t :=
  mk (torrent_id d) (name d) (total_size d) (pieces d) (download_dir d)
    (settings d) (is_multi_file d) (files d) (downloading d) (paused d) v
    (download_speed d) (upload_speed d) (downloaded_size d) (start_time d)
    (completed d) (downloaded_pieces d) (download_folder d) (state_file d)
    (state d).
Definition set_download_speed (v : Q) (d : t) : t :=
  mk (torrent_id d) (name d) (total_size d) (pieces d) (download_dir d)
    (settings d) (is_multi_file d) (files d) (downloading d) (paused d)
    (download_progress d) v (upload_speed d) (downloaded_size d)
    (start_time d) (completed d) (downloaded_pieces d) (download_folder d)
    (state_file d) (state d).
Definition set_downloaded_size (v : Z) (d : t) : t :=
  mk (torrent_id d) (name d) (total_size d) (pieces d) (download_dir d)
    (settings d) (is_multi_file d) (files d) (downloading d) (paused d)
    (download_progress d) (download_speed d) (upload_speed d) v
    (start_time d) (completed d) (downloaded_pieces d) (download_folder d)
    (state_file d) (state d).
Definition set_start_time (v : option Q) (d : t) : t :=
  mk (torrent_id d) (name d) (total_size d) (pieces d) (download_dir d)
    (settings d) (is_multi_file d) (files d) (downloading d) (paused d)
    (download_progress d) (download_speed d) (upload_speed d)
    (downloaded_size d) v (completed d) (downloaded_pieces d)
    (download_folder d) (state_file d) (state d).
Definition set_completed (v : bool) (d : t) : t :=
  mk (torrent_id d) (name d) (total_size d) (pieces d) (download_dir d)
    (settings d) (is_multi_file d) (files d) (downloading d) (paused d)
    (download_progress d) (download_speed d) (upload_speed d)
    (downloaded_size d) (start_time d) v (downloaded_pieces d)
    (download_folder d) (state_file d) (state d).
Definition set_downloaded_pieces (v : gset Z) (d : t) : t :=
  mk (torrent_id d) (name d) (total_size d) (pieces d) (download_dir d)
    (settings d) (is_multi_file d) (files d) (downloading d) (paused d)
    (download_progress d) (download_speed d) (upload_speed d)
    (downloaded_size d) (start_time d) (completed d) v (download_folder d)
    (state_file d) (state d).
Definition set_state (v : DownloadState) (d : t) : t :=
  mk (torrent_id d) (name d) (total_size d) (pieces d) (download_dir d)
    (settings d) (is_multi_file d) (files d) (downloading d) (paused d)
    (download_progress d) (download_speed d) (upload_speed d)
    (downloaded_size d) (start_time d) (completed d) (downloaded_pieces d)
    (download_folder d) (state_file d) v.

(** *** The state classes: each method gets the download and answers the
    mutated download together with its boolean result. *)

Module StoppedState.
Definition start (download : t) : t * bool :=
  (set_paused false (set_downloading true (set_state DownloadingState download)),
   true).
Definition pause (download : t) : t * bool := (download, false).
Definition resume (download : t) : t * bool := (download, false).
Definition stop (download : t) : t * bool := (download, false).
End StoppedState.

Module DownloadingState.
Definition start (download : t) : t * bool := (download, false).
Definition pause (download : t) : t * bool :=
  (set_paused true (set_state PausedState download), true).
Definition resume (download : t) : t * bool := (download, false).
Definition stop (download : t) : t * bool :=
  (set_paused false (set_downloading false (set_state StoppedState download)),
   true).
End DownloadingState.

Module PausedState.
Definition start (download : t) : t * bool := (download, false).
Definition pause (download : t) : t * bool := (download, false).
Definition resume (download : t) : t * bool :=
  (set_paused false (set_state DownloadingState download), true).
Definition stop (download : t) : t * bool :=
  (set_paused false (set_downloading false (set_state StoppedState download)),
   true).
End PausedState.

Module CompletedState.
Definition start (download : t) : t * bool := (download, false).
Definition pause (download : t) : t * bool := (download, false).
Definition resume (download : t) : t * bool := (download, false).
Definition stop (download : t) : t * bool := (download, false).
End CompletedState.

(** Dynamic dispatch [self.state.start(self)] and its siblings. *)
Definition state_start (d : t) : t * bool :=
  match state d with
  | StoppedState => StoppedState.start d
  | DownloadingState => DownloadingState.start d
  | PausedState => PausedState.start d
  | CompletedState => CompletedState.start d
  end.
Definition state_pause (d : t) : t * bool :=
  match state d with
  | StoppedState => StoppedState.pause d
  | DownloadingState => DownloadingState.pause d
  | PausedState => PausedState.pause d
  | CompletedState => CompletedState.pause d
  end.
Definition state_resume (d : t) : t * bool :=
  match state d with
  | StoppedState => StoppedState.resume d
  | DownloadingState => DownloadingState.resume d
  | PausedState => PausedState.resume d
  | CompletedState => CompletedState.resume d
  end.
Definition state_stop (d : t) : t * bool :=
  match state d with
  | StoppedState => StoppedState.stop d
  | DownloadingState => DownloadingState.stop d
  | PausedState => PausedState.stop d
  | CompletedState => CompletedState.stop d
  end.

(** *** Persistence of one download *)

(** The dictionary comprehension [{file.path: file.selected for file in
    self.files}]: a later file with the same path overwrites. *)
Definition selections_of (files : list TorrentFile.t) : gmap string bool :=
  foldl (λ m f, <[TorrentFile.path f := TorrentFile.selected f]> m) ∅ files.

(** The loop of [load_state] over [self.files]. *)
Definition apply_selections (file_selections : gmap string bool)
    (files : list TorrentFile.t) : list TorrentFile.t :=
  (λ file,
     match file_selections !! TorrentFile.path file with
     | Some b => TorrentFile.set_selected b file
     | None => file
     end) <$> files.

(** [len(self.downloaded_pieces) / len(self.pieces) * 100 if self.pieces else 0]. *)
Definition loaded_progress (downloaded_pieces : gset Z)
    (pieces : list Piece.t) : Q :=
  match pieces with
  | [] => 0%Q
  | _ =>
      (inject_Z (Z.of_nat (size downloaded_pieces))
       / inject_Z (Z.of_nat (List.length pieces)) * 100)%Q
  end.

(** [load_state]: nothing happens when the state file does not exist. *)
Definition load_state (disk : gmap string StateJson.t) (d : t) : t :=
  match disk !! state_file d with
  | None => d
  | Some st =>
      let d := set_downloaded_pieces
                 (list_to_set (default [] (StateJson.downloaded_pieces st))) d in
      let d := set_downloaded_size (default 0 (StateJson.downloaded_size st)) d in
      let d := set_completed (default false (StateJson.completed st)) d in
      let file_selections := default ∅ (StateJson.file_selections st) in
      let d := set_files (apply_selections file_selections (files d)) d in
      set_download_progress
        (loaded_progress (downloaded_pieces d) (pieces d)) d
  end.

(** The dictionary [save_state] dumps. *)
Definition state_dict (d : t) : StateJson.t :=
  StateJson.mk (Some (elements (downloaded_pieces d)))
    (Some (downloaded_size d)) (Some (completed d))
    (Some (selections_of (files d))).

(** [save_state]: the file is opened with ['w'], the old content is gone. *)
Definition save_state (d : t) (disk : gmap string StateJson.t)
    : gmap string StateJson.t :=
  <[state_file d := state_dict d]> disk.

(** [__init__]: the fields, the two paths, then [self.load_state()] while
    [self.files] is still the empty list. *)
Definition new (disk : gmap string StateJson.t) (torrent_id name : string)
    (total_size : Z) (pieces : list Piece.t) (download_dir : string)
    (settings : DownloadSettings.t) (is_multi_file : bool) : t :=
  let download_folder := Path.join download_dir torrent_id in
  load_state disk
    (mk torrent_id name total_size pieces download_dir settings is_multi_file
       [] false false 0%Q 0%Q 0%Q 0 None false ∅ download_folder
       (Path.join download_folder "state.json") StoppedState).

(** [add_files]: appends to [self.files], offsets counted from 0.  [None]
    is the [IndexError] of an empty path, which the method lets escape. *)
Definition add_files (files_info : list FileDict.t) (d : t) : option t :=
  files ← TorrentService.files_loop files_info 0 (files d);
  Some (set_files files d).

(** The inner loop of [update_file_selection]: the first file with that
    path, then [break]. *)
Fixpoint select_first (file_path : string) (selected : bool)
    (files : list TorrentFile.t) : list TorrentFile.t :=
  match files with
  | [] => []
  | file :: rest =>
      if decide (TorrentFile.path file = file_path)
      then TorrentFile.set_selected selected file :: rest
      else file :: select_first file_path selected rest
  end.

(** [update_file_selection]: [file_selections.items()] in order, then
    [save_state]. *)
Definition update_file_selection (file_selections : list (string * bool))
    (d : t) (disk : gmap string StateJson.t)
    : t * gmap string StateJson.t * bool :=
  let d := set_files
             (foldl (λ fs kv, select_first kv.1 kv.2 fs) (files d)
                file_selections) d in
  (d, save_state d disk, true).

(** *** The control methods *)

Definition start_download (d : t) : t * bool :=
  if completed d then (d, true) else state_start d.

Definition pause_download (d : t) : t * bool :=
  if negb (downloading d) then (d, false) else state_pause d.

Definition resume_download (d : t) : t * bool :=
  if negb (downloading d) || negb (paused d) then (d, false)
  else state_resume d.

Definition stop_download (d : t) (disk : gmap string StateJson.t)
    : t * gmap string StateJson.t * bool :=
  let '(d, result) := state_stop d in
  (d, save_state d disk, result).

End Download.


(** ** The world outside a download

    The state files, the global index, the output files, and the log of
    the [logger] calls that matter for the properties below. *)

Inductive LogRecord :=
  | LogInfo (msg : string)
  | LogWarning (msg : string)
  | LogError (msg : string).

#[global] Instance LogRecord_eq_dec : EqDecision LogRecord.
Proof. solve_decision. Defined.

(** One entry of the global index [download_state.json], as
    [save_downloads_state] writes it; [Piece.to_dict] drops [data]. *)
Module IndexEntry.
Record t := mk {
  name : string;
  total_size : Z;
  pieces : list Piece.t;
  download_dir : string;
  state_file : string;
  settings : DownloadSettings.t;
  is_multi_file : bool;
  files : option (list TorrentFile.t)
}.
End IndexEntry.

Module World.
Record t := mk {
  state_files : gmap string StateJson.t;
  index_file : option (gmap string IndexEntry.t);
  out_files : gmap string (list byte);
  log : list LogRecord
}.
Definition empty : t := mk ∅ None ∅ [].
Definition set_state_files (v : gmap string StateJson.t) (w : t) : t :=
  mk v (index_file w) (out_files w) (log w).
Definition set_index_file (v : gmap string IndexEntry.t) (w : t) : t :=
  mk (state_files w) (Some v) (out_files w) (log w).
(** [open(path, 'wb')] followed by [f.write(content)]. *)
Definition write (path : string) (content : list byte) (w : t) : t :=
  mk (state_files w) (index_file w) (<[path := content]> (out_files w)) (log w).
(** [shutil.rmtree(folder)]: everything below the folder is gone. *)
Definition rmtree (folder : string) (w : t) : t :=
  let outside {A} (m : gmap string A) : gmap string A :=
    filter (λ kv, String.prefix (folder +:+ "/") kv.1 = false) m in
  mk (outside (state_files w)) (index_file w) (outside (out_files w)) (log w).
Definition say (r : LogRecord) (w : t) : t :=
  mk (state_files w) (index_file w) (out_files w) (log w ++ [r]).
End World.

(** ** [src/services/file_service.py] *)

Module FileService.
Section WithDisk.

(** [_generate_realistic_file_content(path, size)]: a header chosen by
    the file type followed by random filler. *)
Variable content_of : string → Z → list byte.

(** Whether creating the parent directories of a path, opening it and
    writing to it go through; otherwise one of them raises. *)
Variable can_write : string → bool.

(** The [for file_info in files] loop of [write_files]; the [bool] is
    [false] when an exception left the loop. *)
Fixpoint write_loop (download_folder : string) (files : list (string * Z))
    (w : World.t) : World.t * bool :=
  match files with
  | [] => (w, true)
  | (path, file_size) :: rest =>
      let file_path := Path.join download_folder path in
      if can_write file_path then
        let content := content_of path file_size in
        write_loop download_folder rest
          (World.say (LogInfo ("Wrote file: " +:+ file_path))
             (World.write file_path content w))
      else (w, false)
  end.

(** [write_files]: one [try] around the whole loop; its handler logs and
    answers [False].  The download folder exists since the download was
    constructed, so [mkdir(exist_ok=True)] is silent. *)
Definition write_files (download_folder : string) (files : list (string * Z))
    (total_size : Z) (w : World.t) : World.t * bool :=
  let '(w, ok) := write_loop download_folder files w in
  if ok then (w, true)
  else (World.say (LogError "Error writing files") w, false).

End WithDisk.
End FileService.

(** ** [src/config/settings.py]: the constants of [Config] *)

Module Config.
Definition BATCH_SIZE : Z := 20.
Definition PIECE_SIZE : Z := 16384.
End Config.

(** ** [src/core/download_worker.py] *)

Module DownloadWorker.

(** The worker's own flags; the download it drives is passed along. *)
Record t := mk { running : bool; paused : bool; stopped : bool }.

(** [__init__]. *)
Definition new : t := mk false false false.

(** What a run threads through its loops. *)
Record run := mkrun {
  worker : t;
  download : Download.t;
  downloaded_count : Z;
  world : World.t
}.

Definition pause (w : t) : t * bool := (mk (running w) true (stopped w), true).
Definition resume (w : t) : t * bool := (mk (running w) false (stopped w), true).
Definition stop (w : t) : t * bool := (mk false false true, true).

(** [start]: [tasks] are the coroutines handed to [asyncio.create_task],
    named by the download they work on; [now] is [time.time()]. *)
Definition start (now : Q) (w : t) (d : Download.t) (tasks : list string)
    : t * Download.t * list string * bool :=
  if Download.completed d then (w, d, tasks, true)
  else
    (mk true false false,
     Download.set_start_time (Some now) d,
     tasks ++ [Download.torrent_id d],
     true).

Section WithEnvironment.

Variable content_of : string → Z → list byte.
Variable can_write : string → bool.

(** [time.time()] when the piece at a position of the piece list is
    downloaded. *)
Variable clock : nat → Q.

(** Whether a [stop()] from outside has reached the worker by the time
    it polls [self.stopped] with so many pieces of the list behind it.
    Waiting in the pause loop changes nothing else: it ends with the
    download resumed or stopped. *)
Variable stop_req : nat → bool.

Definition observe (k : nat) (r : run) : run :=
  if stop_req k
  then mkrun (stop (worker r)).1 (download r) (downloaded_count r) (world r)
  else r.

(** [_download_piece], applied to the piece at position [k]. *)
Definition _download_piece (k : nat) (piece : Piece.t) (d : Download.t)
    : Download.t :=
  let piece := Piece.mk (Piece.index piece) (Piece.size piece)
                 (Piece.hash piece) (Piece.data piece) true in
  let d := Download.set_pieces (<[k := piece]> (Download.pieces d)) d in
  let d := Download.set_downloaded_size
             (Download.downloaded_size d + Piece.size piece) d in
  match Download.start_time d with
  | Some start_time =>
      if Qeq_dec start_time 0 then d
      else
        let elapsed := (clock k - start_time)%Q in
        if Qlt_le_dec 0 elapsed
        then Download.set_download_speed
               (inject_Z (Download.downloaded_size d) / elapsed)%Q d
        else d
  | None => d
  end.

(** The body of [for piece in batch_pieces] past its stop checks. *)
Definition process_piece (total_pieces : Z) (k : nat) (piece : Piece.t)
    (r : run) : run :=
  let d := _download_piece k piece (download r) in
  let downloaded_count := downloaded_count r + 1 in
  let d := Download.set_downloaded_pieces
             ({[Piece.index piece]} ∪ Download.downloaded_pieces d) d in
  let d := Download.set_download_progress
             (inject_Z downloaded_count / inject_Z total_pieces * 100)%Q d in
  mkrun (worker r) d downloaded_count (world r).

(** [for piece in batch_pieces]: [k] is the position of the head of
    [batch_pieces] in the piece list. *)
Fixpoint batch_loop (total_pieces : Z) (k : nat) (batch_pieces : list Piece.t)
    (r : run) : run :=
  match batch_pieces with
  | [] => r
  | piece :: rest =>
      let r := observe k r in
      if stopped (worker r) then r
      else batch_loop total_pieces (S k) rest (process_piece total_pieces k piece r)
  end.

Definition save_run (r : run) : run :=
  mkrun (worker r) (download r) (downloaded_count r)
    (World.set_state_files
       (Download.save_state (download r) (World.state_files (world r)))
       (world r)).

(** [for i in range(0, total_pieces, batch_size)]. *)
Fixpoint batches_loop (total_pieces batch_size : Z) (starts : list Z)
    (r : run) : run :=
  match starts with
  | [] => r
  | i :: rest =>
      let r := observe (Z.to_nat i) r in
      if stopped (worker r) then r
      else
        let batch_end := Z.min (i + batch_size) total_pieces in
        let batch_pieces := Py.slice (Download.pieces (download r)) i batch_end in
        let r := batch_loop total_pieces (Z.to_nat i) batch_pieces r in
        let r :=
          if decide (downloaded_count r `mod` (batch_size * 5) = 0)
          then save_run r else r in
        batches_loop total_pieces batch_size rest r
  end.

(** The list [files_info] that [_complete_download] collects: path and
    length of every file with [file.selected]. *)
Definition selected_files_info (files : list TorrentFile.t) : list (string * Z) :=
  (λ file, (TorrentFile.path file, TorrentFile.length file))
    <$> filter (λ file, TorrentFile.selected file = true) files.

(** [_complete_download]; an exception while the single file is written
    is caught by the method's own handler, which skips what follows. *)
Definition _complete_download (r : run) : run :=
  let d := download r in
  let d := Download.set_completed true d in
  let d := Download.set_downloading false d in
  let d := Download.set_download_progress 100%Q d in
  let r := mkrun (worker r) d (downloaded_count r) (world r) in
  let finish (r : run) : run :=
    let r := save_run r in
    let w := if DownloadSettings.auto_stop (Download.settings d)
             then (stop (worker r)).1 else worker r in
    mkrun w (download r) (downloaded_count r)
      (World.say (LogInfo ("Completed download: " +:+ Download.name d)) (world r)) in
  if Download.is_multi_file d && negb (bool_decide (Download.files d = [])) then
    let files_info := selected_files_info (Download.files d) in
    match files_info with
    | [] => finish r
    | _ =>
        let '(w, success) :=
          FileService.write_files content_of can_write
            (Download.download_folder d) files_info (Download.total_size d)
            (world r) in
        let w :=
          if success
          then World.say (LogInfo ("Successfully wrote files for " +:+ Download.name d)) w
          else World.say (LogError ("Failed to write files for " +:+ Download.name d)) w in
        finish (mkrun (worker r) (download r) (downloaded_count r) w)
    end
  else
    let file_path := Path.join (Download.download_folder d) (Download.name d) in
    if can_write file_path then
      let content := content_of (Download.name d) (Download.total_size d) in
      let w := World.say (LogInfo ("Successfully wrote file: " +:+ file_path))
                 (World.write file_path content (world r)) in
      finish (mkrun (worker r) (download r) (downloaded_count r) w)
    else
      mkrun (worker r) (download r) (downloaded_count r)
        (World.say (LogError "Error completing download") (world r)).

(** [_download_worker]. *)
Definition _download_worker (w : t) (d : Download.t) (wd : World.t) : run :=
  let total_pieces := Z.of_nat (List.length (Download.pieces d)) in
  let batch_size := Config.BATCH_SIZE in
  let r := mkrun w d 0 wd in
  let r := batches_loop total_pieces batch_size
             (Py.range_step total_pieces batch_size) r in
  let r := observe (List.length (Download.pieces d)) r in
  let r := if stopped (worker r) then r else _complete_download r in
  mkrun (mk false (paused (worker r)) (stopped (worker r)))
    (download r) (downloaded_count r) (world r).

End WithEnvironment.
End DownloadWorker.


(** ** [src/services/download_service.py] *)

Module DownloadService.

(** The service: [self.settings.download_dir] and [self.downloads]. *)
Record t := mk {
  download_dir : string;
  downloads : gmap string Download.t
}.

Definition piece_to_dict (p : Piece.t) : Piece.t :=
  Piece.mk (Piece.index p) (Piece.size p) (Piece.hash p) None
    (Piece.downloaded p).

Definition download_info (download : Download.t) : IndexEntry.t :=
  IndexEntry.mk (Download.name download) (Download.total_size download)
    (piece_to_dict <$> Download.pieces download)
    (Download.download_dir download) (Download.state_file download)
    (Download.settings download) (Download.is_multi_file download)
    (if Download.is_multi_file download
     then Some (Download.files download) else None).

(** [save_downloads_state]: the index is rewritten from [self.downloads]. *)
Definition save_downloads_state (s : t) (w : World.t) : World.t :=
  World.set_index_file (download_info <$> downloads s) w.

(** [create_download]. *)
Definition create_download (torrent_info : TorrentInfo.t)
    (settings : DownloadSettings.t) (s : t) (w : World.t)
    : t * World.t * option string :=
  let torrent_id := Py.str_take 16 (Py.hex (TorrentInfo.info_hash torrent_info)) in
  match downloads s !! torrent_id with
  | Some _ => (s, w, Some torrent_id)
  | None =>
      let download :=
        Download.new (World.state_files w) torrent_id
          (TorrentInfo.name torrent_info) (TorrentInfo.total_size torrent_info)
          (TorrentInfo.pieces torrent_info) (download_dir s) settings
          (TorrentInfo.is_multi_file torrent_info) in
      let added :=
        if TorrentInfo.is_multi_file torrent_info then
          let files_info :=
            (λ file, FileDict.mk (Py.split "/" (TorrentFile.path file))
                       (TorrentFile.length file))
              <$> TorrentInfo.files torrent_info in
          Download.add_files files_info download
        else Some download in
      match added with
      | None => (s, w, None)
      | Some download =>
          let s := mk (download_dir s) (<[torrent_id := download]> (downloads s)) in
          (s, save_downloads_state s w, Some torrent_id)
      end
  end.


(** [get_download]. *)
Definition get_download (torrent_id : string) (s : t) : option Download.t :=
  downloads s !! torrent_id.

(** The body of the loop of [load_downloads] for one entry of the index
    whose state file exists: the constructor (which loads the state
    file), then the files of the index with their [selected] flags. *)
Definition load_download (disk : gmap string StateJson.t) (torrent_id : string)
    (download_info : IndexEntry.t) : Download.t :=
  let download :=
    Download.new disk torrent_id (IndexEntry.name download_info)
      (IndexEntry.total_size download_info) (IndexEntry.pieces download_info)
      (IndexEntry.download_dir download_info) (IndexEntry.settings download_info)
      (IndexEntry.is_multi_file download_info) in
  match IndexEntry.files download_info with
  | Some files =>
      if Download.is_multi_file download then
        Download.set_files
          ((λ file_info,
              TorrentFile.mk (TorrentFile.path file_info)
                (TorrentFile.length file_info) (TorrentFile.offset file_info)
                false (TorrentFile.selected file_info)) <$> files)
          download
      else download
  | None => download
  end.

(** [load_downloads]: every entry of the index whose state file exists
    is put into [self.downloads]; the others are passed over. *)
Definition load_downloads (s : t) (w : World.t) : t :=
  match World.index_file w with
  | None => s
  | Some index =>
      let loaded :=
        map_imap
          (λ torrent_id download_info,
             match World.state_files w !! IndexEntry.state_file download_info with
             | Some _ =>
                 Some (load_download (World.state_files w) torrent_id download_info)
             | None => None
             end)
          index in
      mk (download_dir s) (loaded ∪ downloads s)
  end.

(** [__init__]: an empty registry, then [load_downloads]. *)
Definition new (download_dir : string) (w : World.t) : t :=
  load_downloads (mk download_dir ∅) w.

(** [remove_download], called from a handler of the running event loop:
    [tasks] takes the [stop_download] coroutine handed to
    [asyncio.create_task], which runs after the method has returned.
    The folder exists since the download was constructed, and removing
    it goes through. *)
Definition remove_download (torrent_id : string) (s : t) (w : World.t)
    (tasks : list string) : t * World.t * list string * bool :=
  match get_download torrent_id s with
  | None => (s, w, tasks, false)
  | Some download =>
      let tasks := tasks ++ [("stop " +:+ torrent_id)%string] in
      let w := World.rmtree (Download.download_folder download) w in
      let s := mk (download_dir s) (delete torrent_id (downloads s)) in
      (s, save_downloads_state s w, tasks, true)
  end.

(** [update_download_settings]. *)
Definition update_download_settings (torrent_id : string)
    (settings : DownloadSettings.t) (s : t) (w : World.t)
    : t * World.t * bool :=
  match get_download torrent_id s with
  | None => (s, w, false)
  | Some download =>
      let s := mk (download_dir s)
                 (<[torrent_id := Download.set_settings settings download]>
                    (downloads s)) in
      (s, save_downloads_state s w, true)
  end.

(** [update_file_selection]. *)
Definition update_file_selection (torrent_id : string)
    (file_selections : list (string * bool)) (s : t) (w : World.t)
    : t * World.t * bool :=
  match get_download torrent_id s with
  | None => (s, w, false)
  | Some download =>
      let '(download, disk, ok) :=
        Download.update_file_selection file_selections download
          (World.state_files w) in
      (mk (download_dir s) (<[torrent_id := download]> (downloads s)),
       World.set_state_files disk w, ok)
  end.
End DownloadService.

(** ** [src/core/bit_torrent_client.py] *)

Module BitTorrentClient.
Section WithHash.

Variable sha1_bencode : InfoDict.t → list byte.

(** [parse_torrent]: validate, parse, create. *)
Definition parse_torrent (stem : string) (torrent_data : Metainfo.t)
    (settings : option DownloadSettings.t) (s : DownloadService.t)
    (w : World.t) : DownloadService.t * World.t * (option string * bool) :=
  if negb (TorrentService.validate_torrent_file torrent_data)
  then (s, w, (None, false))
  else
    match TorrentService.parse_torrent sha1_bencode stem torrent_data with
    | None => (s, w, (None, false))
    | Some torrent_info =>
        let settings := default DownloadSettings.default settings in
        match DownloadService.create_download torrent_info settings s w with
        | (s, w, None) => (s, w, (None, false))
        | (s, w, Some torrent_id) =>
            (* [if not torrent_id]: the empty string is falsy too *)
            if decide (torrent_id = EmptyString) then (s, w, (None, false))
            else (s, w, (Some torrent_id, true))
        end
    end.

End WithHash.
End BitTorrentClient.


(** ** [app.py]: the monolithic version *)

Module App.

(** The layered [src/models/download.py], for the helpers both versions
    share word for word. *)
Module Models := Download.

Module Config.
Definition BATCH_SIZE : Z := 5.
Definition PIECE_SIZE : Z := 16384.
End Config.

(** [DownloadProcess]: its own loop only sleeps and reports progress to a
    callback whose body is [pass]; what remains are the flags. *)
Module DownloadProcess.
Record t := mk {
  download_id : string;
  settings : DownloadSettings.t;
  running : bool;
  paused : bool;
  stopped : bool
}.
Definition new (download_id : string) (settings : DownloadSettings.t) : t :=
  mk download_id settings false false false.
Definition start (p : t) : t := mk (download_id p) (settings p) true false false.
Definition pause (p : t) : t :=
  mk (download_id p) (settings p) (running p) true (stopped p).
Definition resume (p : t) : t :=
  mk (download_id p) (settings p) (running p) false (stopped p).
Definition stop (p : t) : t :=
  mk (download_id p) (settings p) false (paused p) true.
End DownloadProcess.

Module Download.

Record t := mk {
  torrent_id : string;
  name : string;
  total_size : Z;
  pieces : list Piece.t;
  download_dir : string;
  settings : DownloadSettings.t;
  is_multi_file : bool;
  files : list TorrentFile.t;
  downloading : bool;
  paused : bool;
  download_progress : Q;
  download_speed : Q;
  upload_speed : Q;
  downloaded_size : Z;
  start_time : option Q;
  completed : bool;
  downloaded_pieces : gset Z;
  download_folder : string;
  state_file : string;
  download_process : option DownloadProcess.t
}.

Definition set_pieces (v : list Piece.t) (d : t) : t :=
  mk (torrent_id d) (name d) (total_size d) v (download_dir d) (settings d)
    (is_multi_file d) (files d) (downloading d) (paused d)
    (download_progress d) (download_speed d) (upload_speed d)
    (downloaded_size d) (start_time d) (completed d) (downloaded_pieces d)
    (download_folder d) (state_file d) (download_process d).
Definition set_settings (v : DownloadSettings.t) (d : t) : t :=
  mk (torrent_id d) (name d) (total_size d) (pieces d) (download_dir d) v
    (is_multi_file d) (files d) (downloading d) (paused d)
    (download_progress d) (download_speed d) (upload_speed d)
    (downloaded_size d) (start_time d) (completed d) (downloaded_pieces d)
    (download_folder d) (state_file d) (download_process d).
Definition set_files (v : list TorrentFile.t) (d : t) : t :=
  mk (torrent_id d) (name d) (total_size d) (pieces d) (download_dir d)
    (settings d) (is_multi_file d) v (downloading d) (paused d)
    (download_progress d) (download_speed d) (upload_speed d)
    (downloaded_size d) (start_time d) (completed d) (downloaded_pieces d)
    (download_folder d) (state_file d) (download_process d).
Definition set_downloading (v : bool) (d : t) : t :=
  mk (torrent_id d) (name d) (total_size d) (pieces d) (download_dir d)
    (settings d) (is_multi_file d) (files d) v (paused d)
    (download_progress d) (download_speed d) (upload_speed d)
    (downloaded_size d) (start_time d) (completed d) (downloaded_pieces d)
    (download_folder d) (state_file d) (download_process d).
Definition set_paused (v : bool) (d : t) : t :=
  mk (torrent_id d) (name d) (total_size d) (pieces d) (download_dir d)
    (settings d) (is_multi_file d) (files d) (downloading d) v
    (download_progress d) (download_speed d) (upload_speed d)
    (downloaded_size d) (start_time d) (completed d) (downloaded_pieces d)
    (download_folder d) (state_file d) (download_process d).
Definition set_download_progress (v : Q) (d : t) : t :=
  mk (torrent_id d) (name d) (total_size d) (pieces d) (download_dir d)
    (settings d) (is_multi_file d) (files d) (downloading d) (paused d) v
    (download_speed d) (upload_speed d) (downloaded_size d) (start_time d)
    (completed d) (downloaded_pieces d) (download_folder d) (state_file d)
    (download_process d).
Definition set_download_speed (v : Q) (d : t) : t :=
  mk (torrent_id d) (name d) (total_size d) (pieces d) (download_dir d)
    (settings d) (is_multi_file d) (files d) (downloading d) (paused d)
    (download_progress d) v (upload_speed d) (downloaded_size d)
    (start_time d) (completed d) (downloaded_pieces d) (download_folder d)
    (state_file d) (download_process d).
Definition set_downloaded_size (v : Z) (d : t) : t :=
  mk (torrent_id d) (name d) (total_size d) (pieces d) (download_dir d)
    (settings d) (is_multi_file d) (files d) (downloading d) (paused d)
    (download_progress d) (download_speed d) (upload_speed d) v
    (start_time d) (completed d) (downloaded_pieces d) (download_folder d)
    (state_file d) (download_process d).
Definition set_start_time (v : option Q) (d : t) : t :=
  mk (torrent_id d) (name d) (total_size d) (pieces d) (download_dir d)
    (settings d) (is_multi_file d) (files d) (downloading d) (paused d)
    (download_progress d) (download_speed d) (upload_speed d)
    (downloaded_size d) v (completed d) (downloaded_pieces d)
    (download_folder d) (state_file d) (download_process d).
Definition set_completed (v : bool) (d : t) : t :=
  mk (torrent_id d) (name d) (total_size d) (pieces d) (download_dir d)
    (settings d) (is_multi_file d) (files d) (downloading d) (paused d)
    (download_progress d) (download_speed d) (upload_speed d)
    (downloaded_size d) (start_time d) v (downloaded_pieces d)
    (download_folder d) (state_file d) (download_process d).
Definition set_downloaded_pieces (v : gset Z) (d : t) : t :=
  mk (torrent_id d) (name d) (total_size d) (pieces d) (download_dir d)
    (settings d) (is_multi_file d) (files d) (downloading d) (paused d)
    (download_progress d) (download_speed d) (upload_speed d)
    (downloaded_size d) (start_time d) (completed d) v (download_folder d)
    (state_file d) (download_process d).
Definition set_download_process (v : option DownloadProcess.t) (d : t) : t :=
  mk (torrent_id d) (name d) (total_size d) (pieces d) (download_dir d)
    (settings d) (is_multi_file d) (files d) (downloading d) (paused d)
    (download_progress d) (download_speed d) (upload_speed d)
    (downloaded_size d) (start_time d) (completed d) (downloaded_pieces d)
    (download_folder d) (state_file d) v.

(** [load_state], [save_state], [__init__], [add_files] and
    [update_file_selection] read as in [src/models/download.py]. *)
Definition load_state (disk : gmap string StateJson.t) (d : t) : t :=
  match disk !! state_file d with
  | None => d
  | Some st =>
      let d := set_downloaded_pieces
                 (list_to_set (default [] (StateJson.downloaded_pieces st))) d in
      let d := set_downloaded_size (default 0 (StateJson.downloaded_size st)) d in
      let d := set_completed (default false (StateJson.completed st)) d in
      let file_selections := default ∅ (StateJson.file_selections st) in
      let d := set_files
                 (Models.apply_selections file_selections (files d)) d in
      set_download_progress
        (Models.loaded_progress (downloaded_pieces d) (pieces d)) d
  end.

Definition state_dict (d : t) : StateJson.t :=
  StateJson.mk (Some (elements (downloaded_pieces d)))
    (Some (downloaded_size d)) (Some (completed d))
    (Some (Models.selections_of (files d))).

Definition save_state (d : t) (disk : gmap string StateJson.t)
    : gmap string StateJson.t :=
  <[state_file d := state_dict d]> disk.

Definition new (disk : gmap string StateJson.t) (torrent_id name : string)
    (total_size : Z) (pieces : list Piece.t) (download_dir : string)
    (settings : DownloadSettings.t) (is_multi_file : bool) : t :=
  let download_folder := Path.join download_dir torrent_id in
  load_state disk
    (mk torrent_id name total_size pieces download_dir settings is_multi_file
       [] false false 0%Q 0%Q 0%Q 0 None false ∅ download_folder
       (Path.join download_folder "state.json") None).

Definition add_files (files_info : list FileDict.t) (d : t) : option t :=
  files ← TorrentService.files_loop files_info 0 (files d);
  Some (set_files files d).

Definition update_file_selection (file_selections : list (string * bool))
    (d : t) (disk : gmap string StateJson.t)
    : t * gmap string StateJson.t * bool :=
  let d := set_files
             (foldl (λ fs kv, Models.select_first kv.1 kv.2 fs)
                (files d) file_selections) d in
  (d, save_state d disk, true).

(** *** The control methods: plain flags, no state classes *)

(** [start_download]: [tasks] collects what is handed to the event loop,
    the [DownloadProcess] coroutine and the download worker. *)
Definition start_download (now : Q) (d : t) (tasks : list string)
    : t * list string * bool :=
  if completed d then (d, tasks, true)
  else
    let d := set_downloading true d in
    let d := set_paused false d in
    let d := set_start_time (Some now) d in
    let d := set_download_process
               (Some (DownloadProcess.start
                        (DownloadProcess.new (torrent_id d) (settings d)))) d in
    (d, tasks ++ [("process " +:+ torrent_id d)%string;
                  ("worker " +:+ torrent_id d)%string], true).

Definition pause_download (d : t) : t * bool :=
  if negb (downloading d) then (d, false)
  else
    let d := set_paused true d in
    (set_download_process (DownloadProcess.pause <$> download_process d) d, true).

Definition resume_download (d : t) : t * bool :=
  if negb (downloading d) || negb (paused d) then (d, false)
  else
    let d := set_paused false d in
    (set_download_process (DownloadProcess.resume <$> download_process d) d, true).

Definition stop_download (d : t) (disk : gmap string StateJson.t)
    : t * gmap string StateJson.t * bool :=
  let d := set_downloading false d in
  let d := set_paused false d in
  let d := set_download_process (DownloadProcess.stop <$> download_process d) d in
  (d, save_state d disk, true).

End Download.

(** *** The download worker of [app.py] *)

Module Worker.

(** What [_async_download_worker] threads through its loops: the
    download, its local counter [downloaded_size], the world, and whether
    an exception is on its way to the handler. *)
Record run := mkrun {
  download : Download.t;
  downloaded_size : Z;
  world : World.t;
  raised : bool
}.

Section WithEnvironment.

(** [_generate_realistic_file_content(path, size)]. *)
Variable content_of : string → Z → list byte.
Variable can_write : string → bool.
(** [time.time()] when piece [i] is recorded. *)
Variable clock : Z → Q.
(** Whether [stop_download] has been called from outside by the time the
    worker polls [self.downloading] on its way to piece [i].  Waiting in
    a pause loop changes nothing else; the two checks around the pause
    loop at the head of a batch are one poll. *)
Variable stop_req : Z → bool.

Definition observe (i : Z) (r : run) : run :=
  if stop_req i then
    let '(d, disk, _) :=
      Download.stop_download (download r) (World.state_files (world r)) in
    mkrun d (downloaded_size r) (World.set_state_files disk (world r)) (raised r)
  else r.

(** [_extract_file_data_from_torrent]. *)
Definition _extract_file_data_from_torrent (d : Download.t) : list byte :=
  if Download.is_multi_file d then
    foldl (λ all_data file,
             if TorrentFile.selected file
             then all_data
                  ++ content_of (TorrentFile.path file) (TorrentFile.length file)
             else all_data)
      [] (Download.files d)
  else content_of (Download.name d) (Download.total_size d).

(** [data += b'\x00' * n]. *)
Definition pad_zeros (data : list byte) (n : Z) : list byte :=
  data ++ replicate (Z.to_nat n) x00.

(** [sum(file.length for file in self.files if file.selected)] or
    [self.total_size], taken once when the worker starts. *)
Definition total_size_to_download (d : Download.t) : Z :=
  if Download.is_multi_file d then
    Py.sum (TorrentFile.length
              <$> filter (λ file, TorrentFile.selected file = true)
                    (Download.files d))
  else Download.total_size d.

(** Lines 467-491: one piece is produced and recorded. *)
Definition process_piece (file_data : list byte) (target : Z) (i : Z)
    (r : run) : run :=
  let d := download r in
  match Download.pieces d !! Z.to_nat i with
  | None => mkrun d (downloaded_size r) (world r) true
  | Some piece =>
      let piece_start := Py.sum (Piece.size <$> Py.slice (Download.pieces d) 0 i) in
      let piece_end := piece_start + Piece.size piece in
      let piece_data := Py.slice file_data piece_start piece_end in
      let piece_data :=
        if decide (Z.of_nat (List.length piece_data) < Piece.size piece)
        then pad_zeros piece_data
               (Piece.size piece - Z.of_nat (List.length piece_data))
        else piece_data in
      let piece := Piece.mk (Piece.index piece) (Piece.size piece)
                     (Piece.hash piece) (Some piece_data) true in
      let d := Download.set_pieces (<[Z.to_nat i := piece]> (Download.pieces d)) d in
      let d := Download.set_downloaded_pieces
                 ({[i]} ∪ Download.downloaded_pieces d) d in
      let downloaded_size :=
        downloaded_size r + Z.of_nat (List.length piece_data) in
      let d := Download.set_downloaded_size downloaded_size d in
      let d :=
        if decide (0 < target)
        then Download.set_download_progress
               (inject_Z downloaded_size / inject_Z target * 100)%Q d
        else d in
      match Download.start_time d with
      | None => mkrun d downloaded_size (world r) true
      | Some start_time =>
          let elapsed := (clock i - start_time)%Q in
          let d :=
            if Qlt_le_dec 0 elapsed
            then Download.set_download_speed
                   (inject_Z downloaded_size / elapsed / 1024)%Q d
            else d in
          mkrun d downloaded_size (world r) false
      end
  end.

(** [for i in range(batch_start, batch_end)]. *)
Fixpoint batch_loop (file_data : list byte) (target : Z) (indices : list Z)
    (r : run) : run :=
  match indices with
  | [] => r
  | i :: rest =>
      if raised r then r
      else if decide (i ∈ Download.downloaded_pieces (download r))
      then batch_loop file_data target rest r
      else
        let r := observe i r in
        if negb (Download.downloading (download r)) then r
        else batch_loop file_data target rest (process_piece file_data target i r)
  end.

Definition save_run (r : run) : run :=
  mkrun (download r) (downloaded_size r)
    (World.set_state_files
       (Download.save_state (download r) (World.state_files (world r)))
       (world r))
    (raised r).

(** [for batch_start in range(0, total_pieces, Config.BATCH_SIZE)]. *)
Fixpoint batches_loop (file_data : list byte) (target total_pieces : Z)
    (starts : list Z) (r : run) : run :=
  match starts with
  | [] => r
  | batch_start :: rest =>
      if raised r then r
      else
        let r := observe batch_start r in
        if negb (Download.downloading (download r)) then r
        else
          let batch_end := Z.min (batch_start + Config.BATCH_SIZE) total_pieces in
          let r := batch_loop file_data target
                     (seqZ batch_start (batch_end - batch_start)) r in
          if raised r then r
          else batches_loop file_data target total_pieces rest (save_run r)
  end.

(** The multi-file loop of [_write_files_with_real_data]; the [bool] is
    [false] when an exception left the loop. *)
Fixpoint write_selected (download_folder : string) (file_data : list byte)
    (data_offset : Z) (files : list TorrentFile.t) (w : World.t)
    : list TorrentFile.t * World.t * bool :=
  match files with
  | [] => ([], w, true)
  | file :: rest =>
      if TorrentFile.selected file then
        let file_path := Path.join download_folder (TorrentFile.path file) in
        if can_write file_path then
          let file_data_slice :=
            Py.slice file_data data_offset (data_offset + TorrentFile.length file) in
          let w := World.say (LogInfo ("File written: " +:+ file_path))
                     (World.write file_path file_data_slice w) in
          let '(rest, w, ok) :=
            write_selected download_folder file_data
              (data_offset + TorrentFile.length file) rest w in
          (TorrentFile.set_downloaded true file :: rest, w, ok)
        else (file :: rest, w, false)
      else
        let '(rest, w, ok) :=
          write_selected download_folder file_data data_offset rest w in
        (file :: rest, w, ok)
  end.

(** [_write_files_with_real_data]: one [try] around everything; its
    handler logs. *)
Definition _write_files_with_real_data (file_data : list byte)
    (d : Download.t) (w : World.t) : Download.t * World.t :=
  if Download.is_multi_file d then
    let '(files, w, ok) :=
      write_selected (Download.download_folder d) file_data 0
        (Download.files d) w in
    (Download.set_files files d,
     if ok then w
     else World.say (LogError "Error writing files with real data") w)
  else
    let file_path := Path.join (Download.download_folder d) (Download.name d) in
    if can_write file_path
    then (d, World.say (LogInfo ("File written to " +:+ file_path))
               (World.write file_path file_data w))
    else (d, World.say (LogError "Error writing files with real data") w).

(** [_async_download_worker]. *)
Definition _async_download_worker (d : Download.t) (w : World.t) : run :=
  let target := total_size_to_download d in
  let file_data := _extract_file_data_from_torrent d in
  let expected_total_size := Py.sum (Piece.size <$> Download.pieces d) in
  let file_data :=
    if decide (Z.of_nat (List.length file_data) < expected_total_size)
    then pad_zeros file_data
           (expected_total_size - Z.of_nat (List.length file_data))
    else file_data in
  let total_pieces := Z.of_nat (List.length (Download.pieces d)) in
  let r := mkrun d 0 w false in
  let r := batches_loop file_data target total_pieces
             (Py.range_step total_pieces Config.BATCH_SIZE) r in
  let r :=
    if raised r then
      mkrun (download r) (downloaded_size r)
        (World.say (LogError ("Download error for " +:+ Download.name d)) (world r))
        true
    else if decide (Z.of_nat (size (Download.downloaded_pieces (download r)))
                    = total_pieces) then
      let '(d', w') := _write_files_with_real_data file_data (download r) (world r) in
      let d' := Download.set_completed true d' in
      let r := save_run (mkrun d' (downloaded_size r) w' false) in
      let w' := World.say
                  (LogInfo ("Download completed successfully: " +:+ Download.name d))
                  (world r) in
      let d' := if DownloadSettings.auto_stop (Download.settings d')
                then Download.set_downloading false (download r)
                else download r in
      mkrun d' (downloaded_size r) w' false
    else
      mkrun (download r) (downloaded_size r)
        (World.say (LogWarning ("Download incomplete: " +:+ Download.name d)) (world r))
        false in
  (* finally *)
  save_run (mkrun (Download.set_downloading false (download r))
              (downloaded_size r) (world r) (raised r)).

End WithEnvironment.
End Worker.

(** *** [BitTorrentClient] of [app.py] *)

Module BitTorrentClient.

Record t := mk {
  download_dir : string;
  downloads : gmap string Download.t
}.

Definition download_info (download : Download.t) : IndexEntry.t :=
  IndexEntry.mk (Download.name download) (Download.total_size download)
    (DownloadService.piece_to_dict <$> Download.pieces download)
    (Download.download_dir download) (Download.state_file download)
    (Download.settings download) (Download.is_multi_file download)
    (if Download.is_multi_file download
     then Some (Download.files download) else None).

Definition save_downloads_state (c : t) (w : World.t) : World.t :=
  World.set_index_file (download_info <$> downloads c) w.

Section WithHash.

Variable sha1_bencode : InfoDict.t → list byte.

(** What [parse_torrent] does once the id is known to be new; [None] is
    an exception on the way to the handler. *)
Definition parse_new (stem : string) (info_dict : InfoDict.t)
    (torrent_id : string) (settings : DownloadSettings.t) (c : t)
    (w : World.t) : option (t * World.t) :=
  piece_length ← InfoDict.piece_length info_dict;
  pieces_hash ← InfoDict.pieces info_dict;
  let is_multi_file :=
    match InfoDict.files info_dict with Some _ => true | None => false end in
  '(files_info, total_size, name) ←
    match InfoDict.files info_dict with
    | Some files_info =>
        Some (files_info, Py.sum (FileDict.length <$> files_info),
              default "multi_file_torrent"%string (InfoDict.name info_dict))
    | None =>
        total_size ← InfoDict.length info_dict;
        Some ([], total_size, default stem (InfoDict.name info_dict))
    end;
  num_pieces ← Py.math_ceil_div total_size piece_length;
  let pieces :=
    TorrentService.make_pieces num_pieces piece_length total_size pieces_hash in
  let download :=
    Download.new (World.state_files w) torrent_id name total_size pieces
      (download_dir c) settings is_multi_file in
  download ←
    (if is_multi_file then Download.add_files files_info download
     else Some download);
  let c := mk (download_dir c) (<[torrent_id := download]> (downloads c)) in
  Some (c, save_downloads_state c w).

(** [parse_torrent]: the answer is the pair [(torrent_id, ok)]. *)
Definition parse_torrent (stem : string) (torrent_data : Metainfo.t)
    (settings : DownloadSettings.t) (c : t) (w : World.t)
    : t * World.t * (option string * bool) :=
  match Metainfo.info torrent_data with
  | None => (c, w, (None, false))
  | Some info_dict =>
      let info_hash := sha1_bencode info_dict in
      let torrent_id := Py.str_take 16 (Py.hex info_hash) in
      match downloads c !! torrent_id with
      | Some _ => (c, w, (Some torrent_id, true))
      | None =>
          match parse_new stem info_dict torrent_id settings c w with
          | Some (c, w) => (c, w, (Some torrent_id, true))
          | None => (c, w, (None, false))
          end
      end
  end.

End WithHash.
End BitTorrentClient.

End App.


(** * Specification predicates *)

(** The piece layout of a torrent of [total_size] bytes cut into pieces
    of [piece_length]: as many pieces as the ceiling of the quotient (the
    least [n] with [total_size <= n * piece_length]), dense indices, every
    piece but the last of full size, the last one holding the rest. *)
Definition piece_layout (pieces : list Piece.t) (piece_length total_size : Z)
    : Prop :=
  let n := Z.of_nat (List.length pieces) in
  (n - 1) * piece_length < total_size ≤ n * piece_length
  ∧ (∀ (i : nat) p, pieces !! i = Some p → Piece.index p = Z.of_nat i)
  ∧ (∀ (i : nat) p, pieces !! i = Some p → Z.of_nat i < n - 1 →
       Piece.size p = piece_length)
  ∧ (∀ p, last pieces = Some p →
       Piece.size p = total_size - (n - 1) * piece_length).


(** The transition table of the specification, section 4.2, in its own
    words: current state, event, next state; a pair that is not listed is
    rejected. *)
Module StateMachineSpec.
Inductive Event := EvStart | EvPause | EvResume | EvStop.

Definition transition_table (s : Download.DownloadState) (e : Event)
    : option Download.DownloadState :=
  match s, e with
  | Download.StoppedState, EvStart => Some Download.DownloadingState
  | Download.DownloadingState, EvPause => Some Download.PausedState
  | Download.DownloadingState, EvStop => Some Download.StoppedState
  | Download.PausedState, EvResume => Some Download.DownloadingState
  | Download.PausedState, EvStop => Some Download.StoppedState
  | _, _ => None
  end.

(** The state-machine operation an event stands for: the method of the
    current state object. *)
Definition operation (e : Event) (d : Download.t) : Download.t * bool :=
  match e with
  | EvStart => Download.state_start d
  | EvPause => Download.state_pause d
  | EvResume => Download.state_resume d
  | EvStop => Download.state_stop d
  end.
End StateMachineSpec.

(** ** Concrete inputs *)

Module Demo.

(** A stand-in for SHA-1 over the encoded info dictionary. *)
Definition sha1_bencode (info : InfoDict.t) : list byte :=
  [xa1; xb2; xc3; xd4; xe5; xf6; x07; x18; x29; x3a;
   x4b; x5c; x6d; x7e; x8f; x90; x01; x12; x23; x34].

(** A single-file torrent of 40000 bytes in pieces of 16384. *)
Definition single_info : InfoDict.t :=
  InfoDict.mk (Some 16384) (Some (replicate 60 x00)) None (Some 40000)
    (Some "demo.bin"%string).
Definition single : Metainfo.t := Metainfo.mk (Some single_info).

(** The id every torrent gets under that stand-in. *)
Definition torrent_id : string :=
  Py.str_take 16 (Py.hex (sha1_bencode single_info)).

(** Generated content: as many bytes as asked for. *)
Definition content_of (path : string) (size : Z) : list byte :=
  replicate (Z.to_nat size) x41.
(** No stop request ever arrives; every path can be written. *)
Definition never (i : Z) : bool := false.
Definition never_nat (k : nat) : bool := false.
Definition always_writable (path : string) : bool := true.

End Demo.

Module Resumed.

(** The scenario of the specification: 49152 bytes in pieces of 16384. *)
Definition info49152 : InfoDict.t :=
  InfoDict.mk (Some 16384) (Some (replicate 60 x00)) None (Some 49152)
    (Some "demo.bin"%string).
Definition state_path : string :=
  Path.join (Path.join "downloads" Demo.torrent_id) "state.json".

(** The disk after an earlier run was stopped with piece 0 recorded. *)
Definition persisted : World.t :=
  World.set_state_files
    {[ state_path := StateJson.mk (Some [0]) (Some 16384) (Some false) (Some ∅) ]}
    World.empty.

(** [app.py]: the torrent is parsed over that disk, started, and the
    worker runs undisturbed. *)
Definition app_client : App.BitTorrentClient.t :=
  (App.BitTorrentClient.parse_torrent Demo.sha1_bencode "demo"
     (Metainfo.mk (Some info49152)) DownloadSettings.default
     (App.BitTorrentClient.mk "downloads" ∅) persisted).1.1.

Definition app_resumed : option App.Worker.run :=
  d ← App.BitTorrentClient.downloads app_client !! Demo.torrent_id;
  let '(d, _, _) := App.Download.start_download 10%Q d [] in
  Some (App.Worker._async_download_worker Demo.content_of Demo.always_writable
          (λ i, 11%Q) Demo.never d persisted).

(** The layered version over the same disk. *)
Definition layered_resumed : option DownloadWorker.run :=
  ti ← TorrentService.parse_torrent Demo.sha1_bencode "demo"
         (Metainfo.mk (Some info49152));
  let '(s, w, _) :=
    DownloadService.create_download ti DownloadSettings.default
      (DownloadService.mk "downloads" ∅) persisted in
  d ← DownloadService.downloads s !! Demo.torrent_id;
  let '(wk, d, _, _) := DownloadWorker.start 10%Q DownloadWorker.new d [] in
  Some (DownloadWorker._download_worker Demo.content_of Demo.always_writable
          (λ k, 11%Q) Demo.never_nat wk d w).

End Resumed.

Module OddPiece.

(** 16385 bytes in pieces of 16384: a full piece and a piece of one
    byte.  The layered worker is stopped after the first piece. *)
Definition info16385 : InfoDict.t :=
  InfoDict.mk (Some 16384) (Some (replicate 40 x00)) None (Some 16385)
    (Some "demo.bin"%string).

Definition stop_after_first (k : nat) : bool := bool_decide (k = 1%nat).

Definition layered_stopped : option DownloadWorker.run :=
  ti ← TorrentService.parse_torrent Demo.sha1_bencode "demo"
         (Metainfo.mk (Some info16385));
  let '(s, w, _) :=
    DownloadService.create_download ti DownloadSettings.default
      (DownloadService.mk "downloads" ∅) World.empty in
  d ← DownloadService.downloads s !! Demo.torrent_id;
  let '(wk, d, _, _) := DownloadWorker.start 10%Q DownloadWorker.new d [] in
  Some (DownloadWorker._download_worker Demo.content_of Demo.always_writable
          (λ k, 11%Q) stop_after_first wk d w).

End OddPiece.

Module TwoFiles.

(** A multi-file torrent that names the path [a] twice. *)
Definition info_twice : InfoDict.t :=
  InfoDict.mk (Some 16) (Some (replicate 20 x00))
    (Some [FileDict.mk ["a"%string] 4; FileDict.mk ["a"%string] 6])
    None (Some "twice"%string).

(** Two files, [a] and [b]. *)
Definition info_ab : InfoDict.t :=
  InfoDict.mk (Some 16) (Some (replicate 20 x00))
    (Some [FileDict.mk ["a"%string] 4; FileDict.mk ["b"%string] 6])
    None (Some "ab"%string).

(** The download a fresh service creates for a torrent over a disk. *)
Definition created (info : InfoDict.t) (disk : gmap string StateJson.t)
    : option Download.t :=
  ti ← TorrentService.parse_torrent Demo.sha1_bencode "demo"
         (Metainfo.mk (Some info));
  let '(s, _, _) :=
    DownloadService.create_download ti DownloadSettings.default
      (DownloadService.mk "downloads" ∅)
      (World.set_state_files disk World.empty) in
  DownloadService.downloads s !! Demo.torrent_id.

(** The download is created, the user deselects a path (which saves the
    state), and the same torrent is constructed afresh over the disk that
    results; [load_state] is then run on it once more. *)
Definition deselected (info : InfoDict.t) (path : string)
    : option (Download.t * gmap string StateJson.t) :=
  d ← created info ∅;
  let '(d, disk, _) := Download.update_file_selection [(path, false)] d ∅ in
  Some (d, disk).

Definition reconstructed (info : InfoDict.t) (path : string)
    : option Download.t :=
  '(_, disk) ← deselected info path;
  created info disk.

Definition reloaded (info : InfoDict.t) (path : string) : option Download.t :=
  '(_, disk) ← deselected info path;
  d0 ← created info disk;
  Some (Download.load_state disk d0).

Definition selected_flags (d : option Download.t) : option (list bool) :=
  (λ d, TorrentFile.selected <$> Download.files d) <$> d.

End TwoFiles.

(** The same info dictionary with another [pieces] byte string. *)
Definition with_pieces (pieces_hash : list byte) (info : InfoDict.t) : InfoDict.t :=
  InfoDict.mk (InfoDict.piece_length info) (Some pieces_hash)
    (InfoDict.files info) (InfoDict.length info) (InfoDict.name info).

Module ShortPieces.

(** 40000 bytes in pieces of 16384 need three hashes, 60 bytes; here
    [pieces] has 7 bytes. *)
Definition seven : list byte := [x01; x02; x03; x04; x05; x06; x07].
Definition info_short : InfoDict.t := with_pieces seven Demo.single_info.
Definition short : Metainfo.t := Metainfo.mk (Some info_short).

End ShortPieces.

(** The file entries of a multi-file torrent of [total_size] bytes: the
    lengths add up to the total, the first offset is 0, and each entry
    ends where the next one begins. *)
Definition prefix_offsets (files : list TorrentFile.t) (total_size : Z) : Prop :=
  Py.sum (TorrentFile.length <$> files) = total_size
  ∧ (∀ f, head files = Some f → TorrentFile.offset f = 0)
  ∧ (∀ (i : nat) f g, files !! i = Some f → files !! S i = Some g →
       TorrentFile.offset f + TorrentFile.length f = TorrentFile.offset g).

(** The entries of [files], one after the other from [start]. *)
Fixpoint chained (start : Z) (files : list TorrentFile.t) : Prop :=
  match files with
  | [] => True
  | f :: rest =>
      TorrentFile.offset f = start ∧ chained (start + TorrentFile.length f) rest
  end.

(** The file lists derived for a multi-file torrent: by
    [TorrentService.parse_torrent] in its [TorrentInfo], by
    [DownloadService.create_download] (through [Download.add_files]) in
    the download it registers for a new id, and by [parse_torrent] of
    [app.py] (through its [Download.add_files]) likewise. *)
Inductive parsed_files (sha1_bencode : InfoDict.t → list byte)
    : Z → list TorrentFile.t → Prop :=
  | files_layered stem torrent_data ti :
      TorrentService.parse_torrent sha1_bencode stem torrent_data = Some ti →
      TorrentInfo.is_multi_file ti = true →
      parsed_files sha1_bencode (TorrentInfo.total_size ti) (TorrentInfo.files ti)
  | files_created stem torrent_data ti settings s w s' w' torrent_id d :
      TorrentService.parse_torrent sha1_bencode stem torrent_data = Some ti →
      TorrentInfo.is_multi_file ti = true →
      DownloadService.downloads s
        !! TorrentService.get_torrent_id ti = None →
      DownloadService.create_download ti settings s w = (s', w', Some torrent_id) →
      DownloadService.downloads s' !! torrent_id = Some d →
      parsed_files sha1_bencode (Download.total_size d) (Download.files d)
  | files_app stem info_dict torrent_id settings c w c' w' d :
      App.BitTorrentClient.parse_new stem info_dict torrent_id settings c w
        = Some (c', w') →
      is_Some (InfoDict.files info_dict) →
      App.BitTorrentClient.downloads c' !! torrent_id = Some d →
      parsed_files sha1_bencode (App.Download.total_size d) (App.Download.files d).

Module ThreeFiles.
(** Three files of 4, 6 and 5 bytes. *)
Definition info_abc : InfoDict.t :=
  InfoDict.mk (Some 16) (Some (replicate 20 x00))
    (Some [FileDict.mk ["dir"%string; "a"%string] 4;
           FileDict.mk ["dir"%string; "b"%string] 6;
           FileDict.mk ["c"%string] 5])
    None (Some "abc"%string).
End ThreeFiles.

Module FailedWrite.

Definition folder : string := Path.join "downloads" Demo.torrent_id.




End FailedWrite.


Module Small.

(** Ten bytes in pieces of four, as both download classes hold them. *)
Definition pieces : list Piece.t :=
  TorrentService.make_pieces 3 4 10 (replicate 60 x00).

Definition layered : Download.t :=
  Download.new ∅ Demo.torrent_id "small.bin" 10 pieces "downloads"
    DownloadSettings.default false.
Definition app : App.Download.t :=
  App.Download.new ∅ Demo.torrent_id "small.bin" 10 pieces "downloads"
    DownloadSettings.default false.

Definition layered_done : Download.t := Download.set_completed true layered.
Definition app_done : App.Download.t := App.Download.set_completed true app.

(** The two files [a] and [b] with [b] deselected, and as a fresh
    download holds them. *)
Definition files_saved : list TorrentFile.t :=
  [TorrentFile.mk "a" 4 0 false true; TorrentFile.mk "b" 6 4 false false].
Definition files_fresh : list TorrentFile.t :=
  [TorrentFile.new "a" 4 0; TorrentFile.new "b" 6 4].
Definition multi_saved : Download.t :=
  Download.set_files files_saved
    (Download.new ∅ Demo.torrent_id "ab" 10 pieces "downloads"
       DownloadSettings.default true).
Definition multi_fresh : Download.t :=
  Download.set_files files_fresh
    (Download.new ∅ Demo.torrent_id "ab" 10 pieces "downloads"
       DownloadSettings.default true).

End Small.

(** [download_progress] agrees with [downloaded_size] over [target]. *)
Definition progress_consistent (target : Z) (d : App.Download.t) : Prop :=
  (App.Download.download_progress d
   == inject_Z (App.Download.downloaded_size d) / inject_Z target * 100)%Q.

(** Either a piece was recorded last, or nothing was recorded since the
    run began with the pieces [S0]. *)
Definition settled (target : Z) (S0 : gset Z) (r : App.Worker.run) : Prop :=
  progress_consistent target (App.Worker.download r)
  ∨ App.Download.downloaded_pieces (App.Worker.download r) = S0.

(** The three fields of a download that recording a piece touches. *)
Definition progress_fields (d : App.Download.t) : Q * Z * gset Z :=
  (App.Download.download_progress d, App.Download.downloaded_size d,
   App.Download.downloaded_pieces d).

Module ZeroPiece.
(** All required keys are there, but the piece length is 0. *)
Definition info : InfoDict.t :=
  InfoDict.mk (Some 0) (Some []) None (Some 10) (Some "zero"%string).
Definition torrent : Metainfo.t := Metainfo.mk (Some info).
End ZeroPiece.

(** The flags of a download agree with its state tag. *)
Definition coherent (d : Download.t) : Prop :=
  match Download.state d with
  | Download.StoppedState =>
      Download.downloading d = false ∧ Download.paused d = false
  | Download.DownloadingState =>
      Download.downloading d = true ∧ Download.paused d = false
  | Download.PausedState =>
      Download.downloading d = true ∧ Download.paused d = true
  | Download.CompletedState => True
  end.

(** A call of one of the four control methods of [Download], and a
    sequence of such calls on a download and the disk its state file
    lives on. *)
Inductive Control := CallStart | CallPause | CallResume | CallStop.

Definition control (c : Control) (st : Download.t * gmap string StateJson.t)
    : Download.t * gmap string StateJson.t * bool :=
  match c with
  | CallStart => let '(d, ok) := Download.start_download st.1 in (d, st.2, ok)
  | CallPause => let '(d, ok) := Download.pause_download st.1 in (d, st.2, ok)
  | CallResume => let '(d, ok) := Download.resume_download st.1 in (d, st.2, ok)
  | CallStop => Download.stop_download st.1 st.2
  end.

Definition controls (cs : list Control)
    (st : Download.t * gmap string StateJson.t)
    : Download.t * gmap string StateJson.t :=
  foldl (λ st c, (control c st).1) st cs.






Module Started.
(** The small download of [app.py] after [start_download]. *)
Definition app : App.Download.t :=
  (App.Download.start_download 10%Q Small.app []).1.1.
End Started.


(** A piece with its [downloaded] flag set. *)
Definition marked (p : Piece.t) : Piece.t :=
  Piece.mk (Piece.index p) (Piece.size p) (Piece.hash p) (Piece.data p) true.

(** Where an undisturbed run of the layered worker stands with [k]
    pieces of the list behind it. *)
Definition counted_up_to (w0 : DownloadWorker.t) (d0 : Download.t) (k : nat)
    (r : DownloadWorker.run) : Prop :=
  let d := DownloadWorker.download r in
  let pieces0 := Download.pieces d0 in
  DownloadWorker.worker r = w0
  ∧ DownloadWorker.downloaded_count r = Z.of_nat k
  ∧ Download.pieces d = (marked <$> take k pieces0) ++ drop k pieces0
  ∧ Download.downloaded_size d
    = Download.downloaded_size d0 + Py.sum (Piece.size <$> take k pieces0)
  ∧ Download.downloaded_pieces d
    = Download.downloaded_pieces d0
      ∪ list_to_set (Piece.index <$> take k pieces0).


(** Neither [completed] nor the output files have changed. *)
Definition layered_quiet (r r' : DownloadWorker.run) : Prop :=
  Download.completed (DownloadWorker.download r')
  = Download.completed (DownloadWorker.download r)
  ∧ World.out_files (DownloadWorker.world r')
    = World.out_files (DownloadWorker.world r).
Definition app_quiet (r r' : App.Worker.run) : Prop :=
  App.Download.completed (App.Worker.download r')
  = App.Download.completed (App.Worker.download r)
  ∧ World.out_files (App.Worker.world r')
    = World.out_files (App.Worker.world r).








Module Huge.
(** A single file of 2^60 + 1 bytes in pieces of 2^60. *)
Definition piece_length : Z := 2 ^ 60.
Definition total_size : Z := 2 ^ 60 + 1.
Definition info : InfoDict.t :=
  InfoDict.mk (Some piece_length) (Some (replicate 40 x00)) None
    (Some total_size) (Some "huge.bin"%string).
Definition torrent : Metainfo.t := Metainfo.mk (Some info).
End Huge.

Module EmptyPath.
(** Two files, the second with an empty list of path segments. *)
Definition info : InfoDict.t :=
  InfoDict.mk (Some 16384) (Some (replicate 20 x00))
    (Some [FileDict.mk ["a"%string] 4; FileDict.mk [] 6]) None
    (Some "pair"%string).
Definition torrent : Metainfo.t := Metainfo.mk (Some info).
End EmptyPath.

(** * Verified properties *)

(** ** The parser *)





Lemma math_ceil_div_nonzero a b n : Py.math_ceil_div a b = Some n → b ≠ 0.
Proof. unfold Py.math_ceil_div. by case_decide. Qed.


Lemma make_pieces_lookup n pl total ph (i : nat) p :
  TorrentService.make_pieces n pl total ph !! i = Some p →
  Z.of_nat i < n
  ∧ p = Piece.new (Z.of_nat i) (Z.min pl (total - Z.of_nat i * pl))
          (Py.slice ph (Z.of_nat i * 20) (Z.of_nat i * 20 + 20)).
Proof.
  unfold TorrentService.make_pieces. rewrite list_lookup_fmap.
  destruct (seqZ 0 n !! i) as [z|] eqn:Hz; simpl; [|discriminate].
  apply lookup_seqZ in Hz as [-> Hlt]. intros [= <-].
  split; [lia|]. by rewrite Z.add_0_l.
Qed.

Lemma make_pieces_length n pl total ph :
  List.length (TorrentService.make_pieces n pl total ph) = Z.to_nat n.
Proof. unfold TorrentService.make_pieces. by rewrite length_fmap, length_seqZ. Qed.


(** What a successful [TorrentService.parse_torrent] went through. *)
Lemma parse_torrent_inv sha1_bencode stem torrent_data ti :
  TorrentService.parse_torrent sha1_bencode stem torrent_data = Some ti →
  ∃ info_dict pl ph,
    Metainfo.info torrent_data = Some info_dict
    ∧ InfoDict.piece_length info_dict = Some pl
    ∧ InfoDict.pieces info_dict = Some ph
    ∧ pl ≠ 0
    ∧ TorrentInfo.piece_length ti = pl
    ∧ (∃ n, Py.math_ceil_div (TorrentInfo.total_size ti) pl = Some n
            ∧ TorrentInfo.pieces ti
              = TorrentService.make_pieces n pl (TorrentInfo.total_size ti) ph)
    ∧ match InfoDict.files info_dict with
      | Some files_info =>
          TorrentInfo.is_multi_file ti = true
          ∧ TorrentInfo.total_size ti = Py.sum (FileDict.length <$> files_info)
          ∧ TorrentService.files_loop files_info 0 [] = Some (TorrentInfo.files ti)
      | None =>
          TorrentInfo.is_multi_file ti = false
          ∧ InfoDict.length info_dict = Some (TorrentInfo.total_size ti)
          ∧ TorrentInfo.files ti = []
      end.
Proof.
  unfold TorrentService.parse_torrent. intros H.
  destruct (Metainfo.info torrent_data) as [info|] eqn:Ei; simpl in H; [|done].
  destruct (InfoDict.piece_length info) as [pl|] eqn:Epl; simpl in H; [|done].
  destruct (InfoDict.pieces info) as [ph|] eqn:Eph; simpl in H; [|done].
  exists info, pl, ph.
  destruct (InfoDict.files info) as [fi|]; simpl in H.
  - destruct (Py.math_ceil_div _ pl) as [n|] eqn:En; simpl in H; [|done].
    pose proof (math_ceil_div_nonzero _ _ _ En).
    destruct (TorrentService.files_loop fi 0 []) as [fs|]; simpl in H; [|done].
    injection H as <-. simpl. repeat split; try done. by exists n.
  - destruct (InfoDict.length info) as [total|] eqn:El; simpl in H; [|done].
    destruct (Py.math_ceil_div _ pl) as [n|] eqn:En; simpl in H; [|done].
    pose proof (math_ceil_div_nonzero _ _ _ En).
    injection H as <-. simpl. repeat split; try done. by exists n.
Qed.

(** [__init__] leaves what it was given in place, whatever it loads. *)
Lemma app_new_descriptor disk torrent_id name total_size pieces download_dir
    settings is_multi_file :
  let d := App.Download.new disk torrent_id name total_size pieces download_dir
             settings is_multi_file in
  App.Download.files d = [] ∧ App.Download.is_multi_file d = is_multi_file
  ∧ App.Download.total_size d = total_size ∧ App.Download.pieces d = pieces
  ∧ App.Download.torrent_id d = torrent_id.
Proof.
  unfold App.Download.new, App.Download.load_state. simpl.
  by destruct (_ !! _).
Qed.

Lemma new_descriptor disk torrent_id name total_size pieces download_dir
    settings is_multi_file :
  let d := Download.new disk torrent_id name total_size pieces download_dir
             settings is_multi_file in
  Download.files d = [] ∧ Download.is_multi_file d = is_multi_file
  ∧ Download.total_size d = total_size ∧ Download.pieces d = pieces
  ∧ Download.torrent_id d = torrent_id.
Proof.
  unfold Download.new, Download.load_state. simpl.
  by destruct (_ !! _).
Qed.

(** What a successful [parse_new] of [app.py] went through. *)
Lemma parse_new_inv stem info_dict torrent_id settings c w c' w' :
  App.BitTorrentClient.parse_new stem info_dict torrent_id settings c w
    = Some (c', w') →
  ∃ pl ph d,
    InfoDict.piece_length info_dict = Some pl
    ∧ InfoDict.pieces info_dict = Some ph
    ∧ pl ≠ 0
    ∧ App.BitTorrentClient.downloads c'
      = <[torrent_id := d]> (App.BitTorrentClient.downloads c)
    ∧ (∃ n, Py.math_ceil_div (App.Download.total_size d) pl = Some n
            ∧ App.Download.pieces d
              = TorrentService.make_pieces n pl (App.Download.total_size d) ph)
    ∧ match InfoDict.files info_dict with
      | Some files_info =>
          App.Download.is_multi_file d = true
          ∧ App.Download.total_size d = Py.sum (FileDict.length <$> files_info)
          ∧ TorrentService.files_loop files_info 0 [] = Some (App.Download.files d)
      | None =>
          App.Download.is_multi_file d = false
          ∧ InfoDict.length info_dict = Some (App.Download.total_size d)
          ∧ App.Download.files d = []
      end.
Proof.
  unfold App.BitTorrentClient.parse_new. intros H.
  destruct (InfoDict.piece_length info_dict) as [pl|] eqn:Epl; simpl in H; [|done].
  destruct (InfoDict.pieces info_dict) as [ph|] eqn:Eph; simpl in H; [|done].
  exists pl, ph.
  destruct (InfoDict.files info_dict) as [fi|]; simpl in H.
  - destruct (Py.math_ceil_div _ pl) as [n|] eqn:En; simpl in H; [|done].
    pose proof (math_ceil_div_nonzero _ _ _ En).
    unfold App.Download.add_files in H.
    match type of H with context [App.Download.new ?a ?b ?c ?d ?e ?f ?g ?h] =>
      pose proof (app_new_descriptor a b c d e f g h) as (Hf & Hm & Ht & Hp & _);
      set (d0 := App.Download.new a b c d e f g h) in * end.
    rewrite Hf in H.
    destruct (TorrentService.files_loop fi 0 []) as [fs|]; simpl in H; [|done].
    injection H as <- <-. exists (App.Download.set_files fs d0). simpl.
    rewrite Ht, Hp. repeat split; try done. by exists n.
  - destruct (InfoDict.length info_dict) as [total|] eqn:El; simpl in H; [|done].
    destruct (Py.math_ceil_div _ pl) as [n|] eqn:En; simpl in H; [|done].
    pose proof (math_ceil_div_nonzero _ _ _ En).
    match type of H with context [App.Download.new ?a ?b ?c ?d ?e ?f ?g ?h] =>
      pose proof (app_new_descriptor a b c d e f g h) as (Hf & Hm & Ht & Hp & _);
      set (d0 := App.Download.new a b c d e f g h) in * end.
    injection H as <- <-. exists d0. simpl.
    rewrite Ht, Hp. repeat split; try done. by exists n.
Qed.

(** C1, evaluated: 2^60 + 1 bytes in pieces of 2^60.  The ceiling of the
    quotient is 2, and the claimed layout asks for a last piece of 1
    byte; [math.ceil(total_size / piece_length)] takes the quotient as a
    float, which is 1.0, so both parsers build one piece of 2^60 bytes:
    neither the count nor the size of the last piece is as claimed, and
    the sizes do not add up to the total size. *)
Theorem large_torrent_piece_count :
  - ((- Huge.total_size) / Huge.piece_length) = 2
  ∧ Py.math_ceil_div Huge.total_size Huge.piece_length = Some 1
  ∧ (λ ti, (λ p, (Piece.index p, Piece.size p)) <$> TorrentInfo.pieces ti)
      <$> TorrentService.parse_torrent Demo.sha1_bencode "huge" Huge.torrent
    = Some [(0, Huge.piece_length)]
  ∧ (λ d, (λ p, (Piece.index p, Piece.size p)) <$> App.Download.pieces d)
      <$> (App.BitTorrentClient.downloads
             (App.BitTorrentClient.parse_torrent Demo.sha1_bencode "huge"
                Huge.torrent DownloadSettings.default
                (App.BitTorrentClient.mk "downloads" ∅) World.empty).1.1
           !! Demo.torrent_id)
    = Some [(0, Huge.piece_length)]
  ∧ ¬ piece_layout [Piece.new 0 Huge.piece_length (replicate 20 x00)]
        Huge.piece_length Huge.total_size.
Proof.
  split; [vm_compute; reflexivity|].
  split; [vm_compute; reflexivity|].
  split; [vm_compute; reflexivity|].
  split; [vm_compute; reflexivity|].
  intros [[_ Hle] _]. revert Hle. vm_compute. intros Hle. by apply Hle.
Qed.



(** The scenario of the specification: 49152 bytes in pieces of 16384
    are exactly three pieces of 16384 bytes, in both versions. *)
Example three_full_pieces :
  (λ ti, (λ p, (Piece.index p, Piece.size p)) <$> TorrentInfo.pieces ti)
    <$> TorrentService.parse_torrent Demo.sha1_bencode "demo"
          (Metainfo.mk (Some Resumed.info49152))
  = Some [(0, 16384); (1, 16384); (2, 16384)]
  ∧ (λ d, (λ p, (Piece.index p, Piece.size p)) <$> App.Download.pieces d)
      <$> (App.BitTorrentClient.downloads
             (App.BitTorrentClient.parse_torrent Demo.sha1_bencode "demo"
                (Metainfo.mk (Some Resumed.info49152)) DownloadSettings.default
                (App.BitTorrentClient.mk "downloads" ∅) World.empty).1.1
           !! Demo.torrent_id)
    = Some [(0, 16384); (1, 16384); (2, 16384)].
Proof. split; vm_compute; reflexivity. Qed.

(** ** The state machine *)

(** C2: the state classes implement the transition table: a listed pair
    succeeds and moves to the listed state, every other pair answers
    [False] and leaves the download -- state tag and all other fields --
    as it was. *)
Theorem state_classes_follow_table (d : Download.t) (e : StateMachineSpec.Event) :
  match StateMachineSpec.transition_table (Download.state d) e with
  | Some next =>
      (StateMachineSpec.operation e d).2 = true
      ∧ Download.state (StateMachineSpec.operation e d).1 = next
  | None => StateMachineSpec.operation e d = (d, false)
  end.
Proof.
  unfold StateMachineSpec.operation, Download.state_start, Download.state_pause,
    Download.state_resume, Download.state_stop.
  destruct e, (Download.state d); simpl; auto.
Qed.

(** C3: [start] on a download whose [completed] flag is set answers
    [True], hands nothing to the event loop and leaves the download --
    in particular [downloaded_pieces] and [download_progress] -- as it
    was: in [Download.start_download] and [DownloadWorker.start] of the
    layered version and in [Download.start_download] of [app.py]. *)
Theorem start_on_completed (now : Q) (d : Download.t) (wk : DownloadWorker.t)
    (da : App.Download.t) (tasks : list string) :
  Download.completed d = true →
  App.Download.completed da = true →
  Download.start_download d = (d, true)
  ∧ DownloadWorker.start now wk d tasks = (wk, d, tasks, true)
  ∧ App.Download.start_download now da tasks = (da, tasks, true).
Proof.
  intros Hd Hda.
  unfold Download.start_download, DownloadWorker.start, App.Download.start_download.
  by rewrite Hd, Hda.
Qed.

Lemma start_on_completed_witness :
  Download.start_download Small.layered_done = (Small.layered_done, true)
  ∧ DownloadWorker.start 10%Q DownloadWorker.new Small.layered_done []
    = (DownloadWorker.new, Small.layered_done, [], true)
  ∧ App.Download.start_download 10%Q Small.app_done []
    = (Small.app_done, [], true).
Proof.
  apply (start_on_completed 10%Q Small.layered_done DownloadWorker.new
           Small.app_done []); reflexivity.
Defined.

(** ** Resuming *)

(** What holds of the loop of [app.py]: an index that is already in
    [downloaded_pieces] is passed over without a poll and without a
    change. *)
Lemma app_batch_loop_skips clock stop_req file_data target i rest r :
  App.Worker.raised r = false →
  i ∈ App.Download.downloaded_pieces (App.Worker.download r) →
  App.Worker.batch_loop clock stop_req file_data target (i :: rest) r
  = App.Worker.batch_loop clock stop_req file_data target rest r.
Proof. intros Hr Hi. simpl. rewrite Hr. by rewrite decide_True. Qed.

(** C4, evaluated: three pieces of 16384 bytes, piece 0 persisted with
    its 16384 bytes.  The worker of [app.py] skips piece 0 and records 1
    and 2, but counts bytes from zero: it ends complete with 32768
    downloaded bytes and a progress of two thirds.  The layered worker
    does not skip: it records all three pieces on top of the persisted
    16384 bytes. *)
Theorem resume_after_persisted_piece :
  let app_final := App.Worker.download <$> Resumed.app_resumed in
  let layered_final := DownloadWorker.download <$> Resumed.layered_resumed in
  (App.Download.downloaded_pieces <$> app_final = Some {[0; 1; 2]}
   ∧ App.Download.completed <$> app_final = Some true
   ∧ App.Download.total_size <$> app_final = Some 49152
   ∧ App.Download.downloaded_size <$> app_final = Some 32768
   ∧ App.Download.download_progress <$> app_final = Some (3276800 # 49152)%Q
   ∧ ¬ (3276800 # 49152 == 100)%Q)
  ∧ (DownloadWorker.downloaded_count <$> Resumed.layered_resumed = Some 3
     ∧ Download.total_size <$> layered_final = Some 49152
     ∧ Download.downloaded_size <$> layered_final = Some 65536).
Proof.
  split.
  - do 5 (split; [vm_compute; reflexivity|]).
    vm_compute. discriminate.
  - do 2 (split; [vm_compute; reflexivity|]).
    vm_compute; reflexivity.
Qed.

(** ** Progress *)

(** C5 as stated fails in the layered worker: with pieces of 16384 bytes
    and 1 byte, stopped after the first piece, that piece is recorded
    with [download_progress] 50 while 16384 of 16385 bytes are
    downloaded. *)
Lemma layered_progress_counts_pieces :
  let final := DownloadWorker.download <$> OddPiece.layered_stopped in
  Download.is_multi_file <$> final = Some false
  ∧ Download.downloaded_pieces <$> final = Some {[0]}
  ∧ Download.downloaded_size <$> final = Some 16384
  ∧ Download.total_size <$> final = Some 16385
  ∧ Download.download_progress <$> final = Some (100 # 2)%Q
  ∧ ¬ (100 # 2 == inject_Z 16384 / inject_Z 16385 * 100)%Q.
Proof.
  do 5 (split; [vm_compute; reflexivity|]).
  vm_compute. discriminate.
Qed.

(** C5, amended: when the worker of [app.py] records a piece and the
    target fixed at the start of the run is positive,
    [download_progress] is [downloaded_size / target * 100], the target
    being [total_size] for a single-file download and the sum of the
    lengths of the files selected at that moment for a multi-file one;
    the layered worker sets [download_progress] to the number of pieces
    recorded in the run over the number of pieces, times 100. *)
Theorem progress_after_record
    (clock : Z → Q) (d0 : App.Download.t) (file_data : list byte) (i : Z)
    (r : App.Worker.run) (piece : Piece.t)
    (lclock : nat → Q) (total_pieces : Z) (k : nat) (lpiece : Piece.t)
    (lr : DownloadWorker.run) :
  let target := App.Worker.total_size_to_download d0 in
  0 < target →
  App.Download.pieces (App.Worker.download r) !! Z.to_nat i = Some piece →
  let r' := App.Worker.process_piece clock file_data target i r in
  let lr' := DownloadWorker.process_piece lclock total_pieces k lpiece lr in
  target
  = (if App.Download.is_multi_file d0
     then Py.sum (TorrentFile.length
                    <$> filter (λ f, TorrentFile.selected f = true)
                          (App.Download.files d0))
     else App.Download.total_size d0)
  ∧ i ∈ App.Download.downloaded_pieces (App.Worker.download r')
  ∧ (App.Download.download_progress (App.Worker.download r')
     == inject_Z (App.Download.downloaded_size (App.Worker.download r'))
        / inject_Z target * 100)%Q
  ∧ Piece.index lpiece ∈ Download.downloaded_pieces (DownloadWorker.download lr')
  ∧ DownloadWorker.downloaded_count lr' = DownloadWorker.downloaded_count lr + 1
  ∧ (Download.download_progress (DownloadWorker.download lr')
     == inject_Z (DownloadWorker.downloaded_count lr')
        / inject_Z total_pieces * 100)%Q.
Proof.
  intros target Htarget Hpiece r' lr'.
  split; [reflexivity|].
  assert (i ∈ App.Download.downloaded_pieces (App.Worker.download r')
          ∧ (App.Download.download_progress (App.Worker.download r')
             == inject_Z (App.Download.downloaded_size (App.Worker.download r'))
                / inject_Z target * 100)%Q) as [? ?].
  { subst r'. unfold App.Worker.process_piece. rewrite Hpiece.
    destruct (decide (0 < target)); [|done].
    match goal with |- context [App.Download.start_time ?d] =>
      destruct (App.Download.start_time d) as [st|] eqn:Hst end.
    - destruct (Qlt_le_dec _ _); simpl; (split; [set_solver|reflexivity]).
    - simpl. split; [set_solver|reflexivity]. }
  do 2 (split; [done|]).
  subst lr'. unfold DownloadWorker.process_piece, DownloadWorker._download_piece.
  simpl.
  split; [|split; [done|]].
  - destruct (Download.start_time _); [|set_solver].
    destruct (Qeq_dec _ _); [set_solver|].
    destruct (Qlt_le_dec _ _); set_solver.
  - reflexivity.
Qed.

Lemma progress_after_record_witness :
  let r' := App.Worker.process_piece (λ _, 11%Q) (replicate 10 x41) 10 0
              (App.Worker.mkrun Small.app 0 World.empty false) in
  (App.Download.download_progress (App.Worker.download r')
   == inject_Z (App.Download.downloaded_size (App.Worker.download r'))
      / inject_Z 10 * 100)%Q.
Proof.
  refine (proj1 (proj2 (proj2
    (progress_after_record (λ _, 11%Q) Small.app (replicate 10 x41) 0
       (App.Worker.mkrun Small.app 0 World.empty false)
       (Piece.new 0 4 (replicate 20 x00))
       (λ _, 11%Q) 3 0%nat (Piece.new 0 4 (replicate 20 x00))
       (DownloadWorker.mkrun DownloadWorker.new Small.layered 0 World.empty)
       _ _)))).
  - vm_compute. reflexivity.
  - reflexivity.
Defined.

(** ** Progress over a whole run of the worker of [app.py] *)

Section AppRun.

Variable content_of : string → Z → list byte.
Variable can_write : string → bool.
Variable clock : Z → Q.
Variable stop_req : Z → bool.

Lemma observe_progress_fields i r :
  progress_fields (App.Worker.download (App.Worker.observe stop_req i r))
  = progress_fields (App.Worker.download r).
Proof. unfold App.Worker.observe. by destruct (stop_req i). Qed.

Lemma settled_fields target S0 r r' :
  progress_fields (App.Worker.download r') = progress_fields (App.Worker.download r) →
  settled target S0 r → settled target S0 r'.
Proof.
  unfold settled, progress_consistent, progress_fields.
  intros [= -> -> ->]. done.
Qed.

Lemma process_piece_settled file_data target S0 i r :
  0 < target →
  settled target S0 r →
  settled target S0 (App.Worker.process_piece clock file_data target i r).
Proof.
  intros Htarget Hr. unfold App.Worker.process_piece.
  destruct (App.Download.pieces (App.Worker.download r) !! Z.to_nat i) as [piece|];
    [|done].
  left. unfold progress_consistent.
  destruct (decide (0 < target)); [|done].
  match goal with |- context [App.Download.start_time ?d] =>
    destruct (App.Download.start_time d) end; [|reflexivity].
  destruct (Qlt_le_dec _ _); reflexivity.
Qed.

Lemma batch_loop_settled file_data target S0 indices r :
  0 < target →
  settled target S0 r →
  settled target S0
    (App.Worker.batch_loop clock stop_req file_data target indices r).
Proof.
  intros Htarget. revert r. induction indices as [|i rest IH]; intros r Hr; simpl.
  - done.
  - destruct (App.Worker.raised r); [done|].
    destruct (decide _); [by apply IH|].
    pose proof (settled_fields target S0 r _ (observe_progress_fields i r) Hr) as Ho.
    destruct (negb _); [done|].
    apply IH. by apply process_piece_settled.
Qed.

Lemma batches_loop_settled file_data target total_pieces S0 starts r :
  0 < target →
  settled target S0 r →
  settled target S0
    (App.Worker.batches_loop clock stop_req file_data target total_pieces starts r).
Proof.
  intros Htarget. revert r. induction starts as [|b rest IH]; intros r Hr; simpl.
  - done.
  - destruct (App.Worker.raised r); [done|].
    pose proof (settled_fields target S0 r _ (observe_progress_fields b r) Hr) as Ho.
    destruct (negb _); [done|].
    match goal with |- context [App.Worker.batch_loop ?a ?b ?c ?d ?e ?f] =>
      pose proof (batch_loop_settled c d S0 e f Htarget Ho) as Hb;
      destruct (App.Worker.raised (App.Worker.batch_loop a b c d e f))
    end; [done|].
    apply IH. revert Hb. by apply settled_fields.
Qed.

Lemma write_files_progress_fields file_data d w :
  progress_fields (App.Worker._write_files_with_real_data can_write file_data d w).1
  = progress_fields d.
Proof.
  unfold App.Worker._write_files_with_real_data.
  destruct (App.Download.is_multi_file d).
  - by destruct (App.Worker.write_selected _ _ _ _ _ _) as [[? ?] ?].
  - by destruct (can_write _).
Qed.

(** At the end of a run that recorded at least one piece -- stopped or
    not -- [download_progress] is [downloaded_size] over the target that
    was fixed when the run began, times 100. *)
Lemma run_progress_consistent d w :
  let target := App.Worker.total_size_to_download d in
  let final :=
    App.Worker.download
      (App.Worker._async_download_worker content_of can_write clock stop_req d w) in
  0 < target →
  App.Download.downloaded_pieces final ≠ App.Download.downloaded_pieces d →
  progress_consistent target final.
Proof.
  intros target final Htarget Hrecorded.
  assert (settled target (App.Download.downloaded_pieces d) (App.Worker.mkrun final 0 w false))
    as [H|H]; [|done|done].
  subst final. unfold App.Worker._async_download_worker.
  match goal with |- context [App.Worker.batches_loop ?a ?b ?c ?t ?n ?s ?r] =>
    pose proof (batches_loop_settled c t n (App.Download.downloaded_pieces d) s r
                  Htarget (or_intror eq_refl)) as Hloop;
    set (fd := c) in *;
    set (looped := App.Worker.batches_loop a b fd t n s r) in *
  end.
  eapply settled_fields; [|exact Hloop]. simpl.
  destruct (App.Worker.raised looped); [done|].
  destruct (decide (Z.of_nat (size _) = _)); [|done].
  pose proof (write_files_progress_fields fd (App.Worker.download looped)
                (App.Worker.world looped)) as Hw.
  destruct (App.Worker._write_files_with_real_data _ _ _ _) as [d' w'].
  simpl in *. rewrite <- Hw.
  by destruct (DownloadSettings.auto_stop _).
Qed.

End AppRun.

(** ** Persistence of one download *)

Lemma selections_of_snoc fs f :
  Download.selections_of (fs ++ [f])
  = <[TorrentFile.path f := TorrentFile.selected f]> (Download.selections_of fs).
Proof. unfold Download.selections_of. by rewrite foldl_app. Qed.

Lemma selections_of_lookup fs (i : nat) f :
  NoDup (TorrentFile.path <$> fs) →
  fs !! i = Some f →
  Download.selections_of fs !! TorrentFile.path f = Some (TorrentFile.selected f).
Proof.
  revert i f. induction fs as [|g fs IH] using rev_ind; intros i f Hnd Hi.
  - done.
  - rewrite selections_of_snoc. rewrite fmap_app in Hnd.
    apply NoDup_app in Hnd as (Hnd & Hdisj & _).
    apply lookup_app_Some in Hi as [Hi|[_ Hi]].
    + rewrite lookup_insert_ne; [by eapply IH|].
      intros Heq. apply (Hdisj (TorrentFile.path f)).
      * apply list_elem_of_fmap. exists f. split; [done|].
        by eapply list_elem_of_lookup_2.
      * rewrite <- Heq. simpl. set_solver.
    + apply list_lookup_singleton_Some in Hi as [_ ->].
      by rewrite lookup_insert_eq.
Qed.

Lemma apply_selections_round_trip fs fs0 :
  NoDup (TorrentFile.path <$> fs) →
  TorrentFile.path <$> fs0 = TorrentFile.path <$> fs →
  TorrentFile.selected <$> Download.apply_selections (Download.selections_of fs) fs0
  = TorrentFile.selected <$> fs.
Proof.
  intros Hnd Hpaths. apply list_eq. intros i.
  unfold Download.apply_selections. rewrite !list_lookup_fmap.
  pose proof (f_equal (λ l, l !! i) Hpaths) as Hi. simpl in Hi.
  rewrite !list_lookup_fmap in Hi.
  destruct (fs0 !! i) as [f0|] eqn:Hf0, (fs !! i) as [f|] eqn:Hf;
    simpl in *; try done.
  injection Hi as Hi. rewrite Hi.
  by rewrite (selections_of_lookup fs i f Hnd Hf).
Qed.

(** C6 as stated fails when two files share a path: the saved
    [file_selections] dictionary holds one flag per path.  The first [a]
    was deselected; after the state is saved and loaded into a fresh
    download of the same torrent, both are selected. *)
Lemma round_trip_shared_path :
  TwoFiles.selected_flags (fst <$> TwoFiles.deselected TwoFiles.info_twice "a")
    = Some [false; true]
  ∧ TwoFiles.selected_flags (TwoFiles.reloaded TwoFiles.info_twice "a")
    = Some [true; true].
Proof. split; vm_compute; reflexivity. Qed.

(** C6, amended: for a download whose file paths are pairwise distinct,
    [save_state] followed by [load_state] on a download that holds the
    same file list (the same paths in the same order, whatever their
    flags) and the same state file restores [downloaded_pieces],
    [downloaded_size], [completed] and every file's [selected] flag. *)
Theorem save_load_round_trip (d d0 : Download.t) (disk : gmap string StateJson.t) :
  NoDup (TorrentFile.path <$> Download.files d) →
  TorrentFile.path <$> Download.files d0 = TorrentFile.path <$> Download.files d →
  Download.state_file d0 = Download.state_file d →
  let d' := Download.load_state (Download.save_state d disk) d0 in
  Download.downloaded_pieces d' = Download.downloaded_pieces d
  ∧ Download.downloaded_size d' = Download.downloaded_size d
  ∧ Download.completed d' = Download.completed d
  ∧ TorrentFile.selected <$> Download.files d'
    = TorrentFile.selected <$> Download.files d.
Proof.
  intros Hnd Hpaths Hfile d'. subst d'.
  unfold Download.load_state, Download.save_state.
  rewrite Hfile, lookup_insert_eq. simpl.
  split; [by rewrite list_to_set_elements_L|].
  do 2 (split; [done|]).
  by apply apply_selections_round_trip.
Qed.

Lemma save_load_round_trip_witness :
  let d' := Download.load_state (Download.save_state Small.multi_saved ∅)
              Small.multi_fresh in
  Download.downloaded_pieces d' = Download.downloaded_pieces Small.multi_saved
  ∧ Download.downloaded_size d' = Download.downloaded_size Small.multi_saved
  ∧ Download.completed d' = Download.completed Small.multi_saved
  ∧ TorrentFile.selected <$> Download.files d' = [true; false].
Proof.
  apply (save_load_round_trip Small.multi_saved Small.multi_fresh ∅).
  - apply (bool_decide_unpack _). vm_compute. exact I.
  - reflexivity.
  - reflexivity.
Defined.

Example constructor_loads_before_files :
  TwoFiles.selected_flags (fst <$> TwoFiles.deselected TwoFiles.info_ab "b")
    = Some [true; false]
  ∧ TwoFiles.selected_flags (TwoFiles.reconstructed TwoFiles.info_ab "b")
    = Some [true; true]
  ∧ TwoFiles.selected_flags (TwoFiles.reloaded TwoFiles.info_ab "b")
    = Some [true; false].
Proof. repeat split; vm_compute; reflexivity. Qed.

(** ** The [pieces] byte string *)

Lemma slice_length {A} (l : list A) a b :
  0 ≤ a ≤ b →
  Z.of_nat (List.length (Py.slice l a b))
  = Z.min b (Z.of_nat (List.length l)) - Z.min a (Z.of_nat (List.length l)).
Proof.
  intros Hab. unfold Py.slice, Py.slice_index.
  repeat case_decide; try lia.
  rewrite length_take, length_drop. lia.
Qed.

(** C7 as stated fails: a [pieces] string of 7 bytes, neither a multiple
    of 20 nor long enough for the three pieces, passes validation and is
    parsed by both versions; the hashes are what the slices give. *)
Lemma short_pieces_are_parsed :
  Z.of_nat (List.length ShortPieces.seven) `mod` 20 ≠ 0
  ∧ Z.of_nat (List.length ShortPieces.seven) < 3 * 20
  ∧ TorrentService.validate_torrent_file ShortPieces.short = true
  ∧ (λ ti, Piece.hash <$> TorrentInfo.pieces ti)
      <$> TorrentService.parse_torrent Demo.sha1_bencode "demo" ShortPieces.short
    = Some [ShortPieces.seven; []; []]
  ∧ (App.BitTorrentClient.parse_torrent Demo.sha1_bencode "demo" ShortPieces.short
       DownloadSettings.default (App.BitTorrentClient.mk "downloads" ∅)
       World.empty).2
    = (Some Demo.torrent_id, true).
Proof.
  split; [vm_compute; discriminate|].
  split; [vm_compute; reflexivity|].
  repeat split; vm_compute; reflexivity.
Qed.

Lemma parse_torrent_with_pieces sha1_bencode stem info ph' :
  is_Some (TorrentService.parse_torrent sha1_bencode stem (Metainfo.mk (Some info))) →
  is_Some (TorrentService.parse_torrent sha1_bencode stem
             (Metainfo.mk (Some (with_pieces ph' info)))).
Proof.
  unfold TorrentService.parse_torrent, with_pieces, Py.math_ceil_div.
  destruct info as [[pl|] [ph|] [fi|] [len|] nm]; simpl; intros H;
    try (destruct H as [? ?]; discriminate);
    repeat (case_decide; simpl in *; try done);
    destruct (TorrentService.files_loop fi 0 []); simpl in *; done.
Qed.

Lemma parse_new_with_pieces stem info ph' torrent_id settings c w :
  is_Some (App.BitTorrentClient.parse_new stem info torrent_id settings c w) →
  is_Some (App.BitTorrentClient.parse_new stem (with_pieces ph' info)
             torrent_id settings c w).
Proof.
  unfold App.BitTorrentClient.parse_new, with_pieces, Py.math_ceil_div,
    App.Download.add_files.
  destruct info as [[pl|] [ph|] [fi|] [len|] nm]; simpl; intros H;
    try (destruct H as [? ?]; discriminate);
    repeat (case_decide; simpl in *; try done).
  all: repeat match goal with
       | H : context [App.Download.files (App.Download.new ?a ?b ?c ?d ?e ?f ?g ?h)] |- _ =>
           rewrite (proj1 (app_new_descriptor a b c d e f g h)) in H
       | |- context [App.Download.files (App.Download.new ?a ?b ?c ?d ?e ?f ?g ?h)] =>
           rewrite (proj1 (app_new_descriptor a b c d e f g h))
       end.
  all: destruct (TorrentService.files_loop fi 0 []); simpl in *; done.
Qed.

(** C7, amended: the parser never looks at the length of [pieces].  If
    the metadata parses, it parses with any other [pieces] byte string in
    its place, in both versions, and the hash of piece [i] is the slice
    [pieces[20*i : 20*i+20]], of [min(20, max(0, len(pieces) - 20*i))]
    bytes. *)
Theorem parse_ignores_pieces_length sha1_bencode stem info ph ti :
  InfoDict.pieces info = Some ph →
  TorrentService.parse_torrent sha1_bencode stem (Metainfo.mk (Some info)) = Some ti →
  (∀ ph', is_Some (TorrentService.parse_torrent sha1_bencode stem
                     (Metainfo.mk (Some (with_pieces ph' info)))))
  ∧ (∀ ph' torrent_id settings c w,
       is_Some (App.BitTorrentClient.parse_new stem info torrent_id settings c w) →
       is_Some (App.BitTorrentClient.parse_new stem (with_pieces ph' info)
                  torrent_id settings c w))
  ∧ (∀ (i : nat) p, TorrentInfo.pieces ti !! i = Some p →
       Piece.hash p = Py.slice ph (20 * Z.of_nat i) (20 * Z.of_nat i + 20)
       ∧ Z.of_nat (List.length (Piece.hash p))
         = Z.min 20 (Z.max 0 (Z.of_nat (List.length ph) - 20 * Z.of_nat i))).
Proof.
  intros Hph Hparse. split; [|split].
  - intros ph'. apply parse_torrent_with_pieces. by rewrite Hparse.
  - intros ph' tid st c w. apply parse_new_with_pieces.
  - intros i p Hp.
    apply parse_torrent_inv in Hparse
      as (info' & pl & ph0 & [= <-] & _ & Hph0 & _ & _ & (n & _ & Hps) & _).
    rewrite Hph in Hph0. injection Hph0 as <-.
    rewrite Hps in Hp. apply make_pieces_lookup in Hp as [_ ->]. simpl.
    replace (Z.of_nat i * 20) with (20 * Z.of_nat i) by lia.
    split; [done|]. rewrite slice_length by lia. lia.
Qed.

Lemma parse_ignores_pieces_length_witness :
  ∃ ti,
    TorrentService.parse_torrent Demo.sha1_bencode "demo" ShortPieces.short = Some ti
    ∧ ∀ (i : nat) p, TorrentInfo.pieces ti !! i = Some p →
        Piece.hash p = Py.slice ShortPieces.seven (20 * Z.of_nat i) (20 * Z.of_nat i + 20)
        ∧ Z.of_nat (List.length (Piece.hash p))
          = Z.min 20 (Z.max 0 (7 - 20 * Z.of_nat i)).
Proof.
  eexists. split; [reflexivity|].
  refine (proj2 (proj2
    (parse_ignores_pieces_length Demo.sha1_bencode "demo" ShortPieces.info_short
       ShortPieces.seven _ _ _))); reflexivity.
Defined.

(** ** File offsets *)

Lemma foldl_add_from a l : foldl Z.add a l = a + foldl Z.add 0 l.
Proof.
  revert a. induction l as [|y l IH]; intros a; simpl; [lia|].
  rewrite (IH (a + y)), (IH (0 + y)). lia.
Qed.

Lemma sum_cons x l : Py.sum (x :: l) = x + Py.sum l.
Proof. unfold Py.sum. simpl. by rewrite foldl_add_from. Qed.

Lemma sum_app l1 l2 : Py.sum (l1 ++ l2) = Py.sum l1 + Py.sum l2.
Proof.
  induction l1 as [|x l1 IH]; simpl; [done|].
  rewrite !sum_cons, IH. lia.
Qed.

Lemma chained_app start l1 l2 :
  chained start (l1 ++ l2)
  ↔ chained start l1 ∧ chained (start + Py.sum (TorrentFile.length <$> l1)) l2.
Proof.
  revert start. induction l1 as [|f l1 IH]; intros start; simpl.
  - unfold Py.sum. simpl. rewrite Z.add_0_r. tauto.
  - rewrite IH, sum_cons, Z.add_assoc. tauto.
Qed.

(** The loop invariant of the file loop: what has been appended so far is
    chained from 0 and [offset] is the sum of its lengths. *)
Lemma files_loop_spec files_info offset acc files :
  TorrentService.files_loop files_info offset acc = Some files →
  ∃ new,
    files = acc ++ new
    ∧ chained offset new
    ∧ TorrentFile.length <$> new = FileDict.length <$> files_info.
Proof.
  revert offset acc. induction files_info as [|fi rest IH]; intros offset acc; simpl.
  - intros [= <-]. exists []. by rewrite app_nil_r.
  - destruct (head (FileDict.path fi)); simpl; [|done].
    intros H. apply IH in H as (new & -> & Hch & Hlen).
    eexists (_ :: new). rewrite <- app_assoc. simpl.
    split; [done|]. split; [done|]. by f_equal.
Qed.

Lemma chained_adjacent start files (i : nat) f g :
  chained start files →
  files !! i = Some f → files !! S i = Some g →
  TorrentFile.offset f + TorrentFile.length f = TorrentFile.offset g.
Proof.
  revert start i. induction files as [|h rest IH]; intros start i Hch Hf Hg.
  - done.
  - destruct Hch as [Hh Hrest]. destruct i as [|i]; simpl in *.
    + injection Hf as ->. destruct rest as [|g' rest']; [done|].
      simpl in Hg. injection Hg as ->. destruct Hrest as [Hg' _]. lia.
    + by eapply IH.
Qed.

Lemma chained_prefix_offsets files :
  chained 0 files → prefix_offsets files (Py.sum (TorrentFile.length <$> files)).
Proof.
  intros Hch. split; [done|]. split.
  - destruct files as [|f rest]; simpl; [done|]. intros g [= <-]. by destruct Hch.
  - intros i f g. by apply (chained_adjacent 0).
Qed.

Lemma files_loop_prefix_offsets files_info files :
  TorrentService.files_loop files_info 0 [] = Some files →
  prefix_offsets files (Py.sum (FileDict.length <$> files_info)).
Proof.
  intros H. apply files_loop_spec in H as (new & -> & Hch & Hlen).
  simpl. rewrite <- Hlen. by apply chained_prefix_offsets.
Qed.

(** C8: for every multi-file torrent the derived file list -- in the
    [TorrentInfo] of the layered parser and in the [Download] either
    version registers -- has lengths that add up to [total_size], a
    first offset of 0, and [offset + length] of each entry equal to the
    offset of the next. *)
Theorem parsed_files_prefix_offsets sha1_bencode total_size files :
  parsed_files sha1_bencode total_size files →
  prefix_offsets files total_size.
Proof.
  intros [stem td ti Hparse Hmulti
         |stem td ti settings s w s' w' tid d Hparse Hmulti Hnew Hcreate Hd
         |stem info tid settings c w c' w' d Hparse [fi Hfi] Hd].
  - apply parse_torrent_inv in Hparse as (info & pl & ph & _ & _ & _ & _ & _ & _ & Hfiles).
    destruct (InfoDict.files info) as [fi|].
    + destruct Hfiles as (_ & -> & Hloop). by apply files_loop_prefix_offsets.
    + destruct Hfiles as (Hsingle & _). congruence.
  - apply parse_torrent_inv in Hparse as (info & pl & ph & _ & _ & _ & _ & _ & _ & Hfiles).
    destruct (InfoDict.files info) as [fi|];
      [destruct Hfiles as (_ & Htotal & Hloop)|destruct Hfiles; congruence].
    apply files_loop_spec in Hloop as (new & Hnew' & _ & Hlen). simpl in Hnew'.
    unfold DownloadService.create_download, TorrentService.get_torrent_id in *.
    rewrite Hnew, Hmulti in Hcreate. unfold Download.add_files in Hcreate.
    match type of Hcreate with context [Download.new ?a ?b ?c ?d ?e ?f ?g ?h] =>
      pose proof (new_descriptor a b c d e f g h) as (Hf & _ & Ht & _);
      set (d0 := Download.new a b c d e f g h) in * end.
    rewrite Hf in Hcreate.
    destruct (TorrentService.files_loop _ 0 []) as [fs|] eqn:Hloop;
      simpl in Hcreate; [|done].
    injection Hcreate as <- _ <-. simpl in Hd.
    rewrite lookup_insert_eq in Hd. injection Hd as <-. simpl.
    rewrite Ht, Htotal.
    apply files_loop_prefix_offsets in Hloop.
    rewrite <- Hlen, <- Hnew'.
    match type of Hloop with prefix_offsets _ (Py.sum ?l) =>
      replace l with (TorrentFile.length <$> TorrentInfo.files ti) in Hloop
        by by rewrite <- list_fmap_compose
    end.
    done.
  - apply parse_new_inv in Hparse as (pl & ph & d0 & _ & _ & _ & Hds & _ & Hfiles).
    rewrite Hds, lookup_insert_eq in Hd. injection Hd as ->.
    rewrite Hfi in Hfiles. destruct Hfiles as (_ & -> & Hloop).
    by apply files_loop_prefix_offsets.
Qed.

Lemma parsed_files_prefix_offsets_witness :
  ∃ ti,
    TorrentService.parse_torrent Demo.sha1_bencode "demo"
      (Metainfo.mk (Some ThreeFiles.info_abc)) = Some ti
    ∧ (λ f, (TorrentFile.path f, TorrentFile.offset f)) <$> TorrentInfo.files ti
      = [("dir/a"%string, 0); ("dir/b"%string, 4); ("c"%string, 10)]
    ∧ prefix_offsets (TorrentInfo.files ti) 15.
Proof.
  eexists. split; [reflexivity|]. split; [reflexivity|].
  apply (parsed_files_prefix_offsets Demo.sha1_bencode 15).
  exact (files_layered Demo.sha1_bencode "demo"
           (Metainfo.mk (Some ThreeFiles.info_abc)) _ eq_refl eq_refl).
Defined.

(** ** File assembly *)


Section Assembly.

Variable content_of : string → Z → list byte.
Variable can_write : string → bool.



Lemma write_loop_log folder l w :
  ∀ r, r ∈ World.log w →
       r ∈ World.log (FileService.write_loop content_of can_write folder l w).1.
Proof.
  revert w. induction l as [|[q sq] l IH]; intros w r Hr; simpl; [done|].
  destruct (can_write (Path.join folder q)); simpl; [|done].
  apply IH. simpl. set_solver.
Qed.






End Assembly.



(** ** Parsing a torrent that is already registered *)

Lemma create_download_registers ti settings s w s' w' torrent_id :
  DownloadService.create_download ti settings s w = (s', w', Some torrent_id) →
  torrent_id = TorrentService.get_torrent_id ti
  ∧ is_Some (DownloadService.downloads s' !! torrent_id).
Proof.
  unfold DownloadService.create_download, TorrentService.get_torrent_id.
  set (tid := Py.str_take 16 _). cbv zeta.
  destruct (DownloadService.downloads s !! tid) as [d|] eqn:Hd.
  - intros [= <- <- <-]. by rewrite Hd.
  - destruct (if TorrentInfo.is_multi_file ti then _ else _) as [d|]; [|done].
    intros [= <- <- <-]. simpl. by rewrite lookup_insert_eq.
Qed.

Lemma create_download_existing ti settings s w :
  is_Some (DownloadService.downloads s !! TorrentService.get_torrent_id ti) →
  DownloadService.create_download ti settings s w
  = (s, w, Some (TorrentService.get_torrent_id ti)).
Proof.
  unfold DownloadService.create_download, TorrentService.get_torrent_id.
  set (tid := Py.str_take 16 _). intros [d Hd]. cbv zeta. by rewrite Hd.
Qed.

(** C10: once a torrent has been parsed with success, parsing the same
    metadata again while a download with its id is registered answers
    that id with success and leaves the registry and the world -- the
    existing download with its progress, the state files, the index -- as
    they are; after the first parse the id is registered.  First for
    [parse_torrent] of [app.py], then for the layered client, whose
    [create_download] makes the check. *)
Theorem parse_again_keeps_download sha1_bencode stem torrent_data
    settings0 c0 w0 c1 w1 torrent_id
    lsettings0 s0 lw0 s1 lw1 ltorrent_id :
  App.BitTorrentClient.parse_torrent sha1_bencode stem torrent_data settings0 c0 w0
    = (c1, w1, (Some torrent_id, true)) →
  BitTorrentClient.parse_torrent sha1_bencode stem torrent_data lsettings0 s0 lw0
    = (s1, lw1, (Some ltorrent_id, true)) →
  (is_Some (App.BitTorrentClient.downloads c1 !! torrent_id)
   ∧ ∀ settings c w,
       is_Some (App.BitTorrentClient.downloads c !! torrent_id) →
       App.BitTorrentClient.parse_torrent sha1_bencode stem torrent_data settings c w
       = (c, w, (Some torrent_id, true)))
  ∧ (is_Some (DownloadService.downloads s1 !! ltorrent_id)
     ∧ ∀ settings s w,
         is_Some (DownloadService.downloads s !! ltorrent_id) →
         BitTorrentClient.parse_torrent sha1_bencode stem torrent_data settings s w
         = (s, w, (Some ltorrent_id, true))).
Proof.
  intros Happ Hlay. split.
  - unfold App.BitTorrentClient.parse_torrent in *.
    destruct (Metainfo.info torrent_data) as [info|]; [|done].
    set (tid := Py.str_take 16 (Py.hex (sha1_bencode info))) in *.
    assert (torrent_id = tid ∧ is_Some (App.BitTorrentClient.downloads c1 !! tid))
      as [-> Hreg].
    { destruct (App.BitTorrentClient.downloads c0 !! tid) as [d|] eqn:Hd.
      - injection Happ as <- <- <-. by rewrite Hd.
      - destruct (App.BitTorrentClient.parse_new _ _ _ _ _ _) as [[c' w']|] eqn:Hnew;
          [|done].
        injection Happ as <- <- <-.
        apply parse_new_inv in Hnew as (pl & ph & d & _ & _ & _ & -> & _).
        by rewrite lookup_insert_eq. }
    split; [done|]. intros settings c w [d Hd]. by rewrite Hd.
  - unfold BitTorrentClient.parse_torrent in *.
    destruct (TorrentService.validate_torrent_file torrent_data); simpl in *; [|done].
    destruct (TorrentService.parse_torrent _ _ _) as [ti|]; [|done].
    destruct (DownloadService.create_download ti _ s0 lw0) as [[s' w'] [tid|]] eqn:Hc;
      [|done].
    destruct (decide (tid = EmptyString)) as [|Hne]; [done|].
    injection Hlay as <- <- <-.
    apply create_download_registers in Hc as [-> Hreg].
    split; [done|]. intros settings s w Hs.
    rewrite create_download_existing by done.
    by destruct (decide _).
Qed.

Lemma parse_again_keeps_download_witness :
  ∃ c1 w1 s1 lw1,
    App.BitTorrentClient.parse_torrent Demo.sha1_bencode "demo" Demo.single
      DownloadSettings.default (App.BitTorrentClient.mk "downloads" ∅) World.empty
    = (c1, w1, (Some Demo.torrent_id, true))
    ∧ App.BitTorrentClient.parse_torrent Demo.sha1_bencode "demo" Demo.single
        DownloadSettings.default c1 w1
      = (c1, w1, (Some Demo.torrent_id, true))
    ∧ BitTorrentClient.parse_torrent Demo.sha1_bencode "demo" Demo.single
        None (DownloadService.mk "downloads" ∅) World.empty
      = (s1, lw1, (Some Demo.torrent_id, true))
    ∧ BitTorrentClient.parse_torrent Demo.sha1_bencode "demo" Demo.single
        None s1 lw1
      = (s1, lw1, (Some Demo.torrent_id, true)).
Proof.
  do 4 eexists.
  assert (∀ A B C D : Prop, A → C → (A → C → B ∧ D) → A ∧ B ∧ C ∧ D) as Hshape
    by tauto.
  apply Hshape; [reflexivity|reflexivity|].
  intros Happ Hlay.
  destruct (parse_again_keeps_download _ _ _ _ _ _ _ _ _ _ _ _ _ _ _ Happ Hlay)
    as [[Hreg Hagain] [Hlreg Hlagain]].
  split; [by apply Hagain|by apply Hlagain].
Defined.

(** * Further properties of the code *)

(** ** Hexadecimal hashes in the index *)

Lemma hex_byte_digits b :
  let n := Byte.to_N b in
  Py.is_space (Py.hex_digit (n / 16)) = false
  ∧ Py.hex_value (Py.hex_digit (n / 16)) = Some (n / 16)%N
  ∧ Py.hex_value (Py.hex_digit (n `mod` 16)) = Some (n `mod` 16)%N
  ∧ Byte.of_N (n / 16 * 16 + n `mod` 16) = Some b.
Proof. destruct b; vm_compute; auto. Qed.

(** [bytes.fromhex] undoes [bytes.hex]. *)
Lemma fromhex_hex bs : Py.fromhex (Py.hex bs) = Some bs.
Proof.
  induction bs as [|b bs IH]; [done|].
  destruct (hex_byte_digits b) as (Hsp & Hhi & Hlo & Hb).
  cbn [Py.hex Py.fromhex]. cbv zeta. rewrite Hsp, Hhi. simpl.
  rewrite Hlo. simpl. rewrite Hb. simpl. by rewrite IH.
Qed.

(** X1: What [Piece.to_dict] writes into the index, [load_downloads] reads
    back as the same piece: index, size, hash and [downloaded] flag are
    kept, the piece data is dropped. *)
Theorem piece_survives_index (p : Piece.t) :
  Piece.of_dict (Piece.to_dict p)
  = Some (Piece.mk (Piece.index p) (Piece.size p) (Piece.hash p) None
            (Piece.downloaded p)).
Proof. unfold Piece.of_dict, Piece.to_dict. simpl. by rewrite fromhex_hex. Qed.

(** ** Paths through [split] and [join] *)

Lemma split_nonempty sep s : Py.split sep s ≠ [].
Proof.
  destruct s as [|c rest]; simpl; [done|].
  destruct (decide (c = sep)); [done|]. by destruct (Py.split sep rest).
Qed.

(** ['/'.join(path.split('/'))] is [path]. *)
Lemma join_split s : Py.join "/" (Py.split "/" s) = s.
Proof.
  unfold Py.join. induction s as [|c rest IH]; simpl; [done|].
  pose proof (split_nonempty "/" rest) as Hne.
  destruct (decide (c = "/"%char)) as [->|Hc].
  - destruct (Py.split "/" rest) as [|p ps]; [done|].
    simpl in *. by rewrite IH.
  - destruct (Py.split "/" rest) as [|p ps]; [done|].
    destruct ps as [|q ps]; simpl in *; by rewrite <- IH.
Qed.

(** The entries the file loop appends are fresh: not downloaded,
    selected. *)
Lemma files_loop_fresh files_info offset acc files :
  TorrentService.files_loop files_info offset acc = Some files →
  ∃ new, files = acc ++ new
         ∧ Forall (λ f, f = TorrentFile.new (TorrentFile.path f)
                              (TorrentFile.length f) (TorrentFile.offset f)) new.
Proof.
  revert offset acc. induction files_info as [|fi rest IH]; intros offset acc; simpl.
  - intros [= <-]. exists []. by rewrite app_nil_r.
  - destruct (head (FileDict.path fi)); simpl; [|done].
    intros H. apply IH in H as (new & -> & Hnew).
    eexists (_ :: new). rewrite <- app_assoc. split; [done|].
    by constructor.
Qed.

(** Running the file loop over the entries rebuilt from a chained, fresh
    file list gives that list back. *)
Lemma files_loop_rebuild files offset acc :
  chained offset files →
  Forall (λ f, f = TorrentFile.new (TorrentFile.path f)
                     (TorrentFile.length f) (TorrentFile.offset f)) files →
  TorrentService.files_loop
    ((λ file, FileDict.mk (Py.split "/" (TorrentFile.path file))
                (TorrentFile.length file)) <$> files)
    offset acc
  = Some (acc ++ files).
Proof.
  revert offset acc. induction files as [|f files IH]; intros offset acc Hch Hfresh.
  - simpl. by rewrite app_nil_r.
  - destruct Hch as [Hoff Hch]. apply Forall_cons in Hfresh as [Hf Hfresh].
    cbn [fmap list_fmap TorrentService.files_loop FileDict.path FileDict.length].
    rewrite join_split.
    pose proof (split_nonempty "/" (TorrentFile.path f)) as Hne.
    destruct (head (Py.split "/" (TorrentFile.path f))) eqn:Hhead;
      [|by apply head_None in Hhead].
    simpl. rewrite (IH _ _ Hch Hfresh), <- app_assoc. simpl.
    do 2 f_equal. destruct f; simpl in *. by injection Hf as -> ->; subst.
Qed.

(** X2: The download [create_download] registers for a multi-file torrent
    under a new id holds exactly the file list of the parsed torrent:
    splitting each path, joining it again and recounting the offsets
    changes nothing. *)
Theorem created_download_has_parsed_files sha1_bencode stem torrent_data ti
    settings s w s' w' torrent_id d :
  TorrentService.parse_torrent sha1_bencode stem torrent_data = Some ti →
  TorrentInfo.is_multi_file ti = true →
  DownloadService.downloads s !! TorrentService.get_torrent_id ti = None →
  DownloadService.create_download ti settings s w = (s', w', Some torrent_id) →
  DownloadService.downloads s' !! torrent_id = Some d →
  Download.files d = TorrentInfo.files ti.
Proof.
  intros Hparse Hmulti Hnew Hcreate Hd.
  apply parse_torrent_inv in Hparse as (info & pl & ph & _ & _ & _ & _ & _ & _ & Hfiles).
  destruct (InfoDict.files info) as [fi|];
    [destruct Hfiles as (_ & _ & Hloop)|destruct Hfiles; congruence].
  pose proof (files_loop_spec _ _ _ _ Hloop) as (new & Hnew' & Hch & _).
  pose proof (files_loop_fresh _ _ _ _ Hloop) as (new' & Hnew'' & Hfresh).
  simpl in Hnew', Hnew''. subst new new'.
  unfold DownloadService.create_download, TorrentService.get_torrent_id in *.
  set (tid := Py.str_take 16 _) in *. cbv zeta in Hcreate.
  rewrite Hnew, Hmulti in Hcreate. unfold Download.add_files in Hcreate.
  match type of Hcreate with context [Download.new ?a ?b ?c ?d ?e ?f ?g ?h] =>
    pose proof (new_descriptor a b c d e f g h) as (Hf & _);
    set (d0 := Download.new a b c d e f g h) in * end.
  rewrite Hf, (files_loop_rebuild _ 0 [] Hch Hfresh) in Hcreate.
  simpl in Hcreate. injection Hcreate as <- _ <-. simpl in Hd.
  rewrite lookup_insert_eq in Hd. by injection Hd as <-.
Qed.

Lemma created_download_has_parsed_files_witness :
  ∃ ti s' w' d,
    TorrentService.parse_torrent Demo.sha1_bencode "demo"
      (Metainfo.mk (Some ThreeFiles.info_abc)) = Some ti
    ∧ DownloadService.create_download ti DownloadSettings.default
        (DownloadService.mk "downloads" ∅) World.empty
      = (s', w', Some Demo.torrent_id)
    ∧ DownloadService.downloads s' !! Demo.torrent_id = Some d
    ∧ Download.files d = TorrentInfo.files ti.
Proof.
  eexists _, _, _, _.
  assert (∀ A B C D : Prop, A → B → C → (A → B → C → D) → A ∧ B ∧ C ∧ D)
    as Hshape by tauto.
  apply Hshape; [vm_compute; reflexivity..|].
  intros Hparse Hcreate Hd.
  eapply created_download_has_parsed_files;
    [exact Hparse| | |exact Hcreate|exact Hd]; vm_compute; reflexivity.
Defined.

(** ** Piece sizes and hashes as a whole *)

Lemma sum_nil : Py.sum [] = 0.
Proof. done. Qed.





Lemma slice_nonneg {A} (l : list A) a b :
  0 ≤ a ≤ b →
  Py.slice l a b = take (Z.to_nat b - Z.to_nat a) (drop (Z.to_nat a) l).
Proof.
  intros Hab. unfold Py.slice, Py.slice_index.
  repeat case_decide; try lia.
  destruct (decide (a ≤ Z.of_nat (List.length l))).
  - rewrite (Z.min_l a) by done.
    destruct (decide (b ≤ Z.of_nat (List.length l))).
    + rewrite (Z.min_l b) by done. f_equal. lia.
    + rewrite !take_ge; [done|rewrite length_drop; lia..].
  - rewrite (drop_ge l (Z.to_nat a)) by lia.
    rewrite (drop_ge l (Z.to_nat (Z.min _ _))) by lia.
    by rewrite !take_nil.
Qed.

Lemma make_pieces_hashes (m : nat) pl total ph :
  mjoin (Piece.hash <$> TorrentService.make_pieces (Z.of_nat m) pl total ph)
  = take (20 * m) ph.
Proof.
  unfold TorrentService.make_pieces. induction m as [|m IH].
  - done.
  - rewrite seqZ_S, !fmap_app, join_app, IH.
    cbn [fmap list_fmap mjoin list_join Piece.hash Piece.new].
    rewrite app_nil_r, Z.add_0_l, slice_nonneg by lia.
    replace (Z.to_nat (Z.of_nat m * 20 + 20) - Z.to_nat (Z.of_nat m * 20))%nat
      with 20%nat by lia.
    replace (Z.to_nat (Z.of_nat m * 20)) with (20 * m)%nat by lia.
    rewrite take_take_drop. f_equal. lia.
Qed.

(** X4: The hashes of the parsed pieces are consecutive slices of [pieces]:
    put end to end they are its first [20 * num_pieces] bytes, all of it
    when [pieces] has exactly that length. *)
Theorem parsed_hashes_are_slices sha1_bencode stem info ph ti :
  InfoDict.pieces info = Some ph →
  TorrentService.parse_torrent sha1_bencode stem (Metainfo.mk (Some info)) = Some ti →
  mjoin (Piece.hash <$> TorrentInfo.pieces ti)
  = take (20 * List.length (TorrentInfo.pieces ti)) ph
  ∧ (List.length ph = (20 * List.length (TorrentInfo.pieces ti))%nat →
     mjoin (Piece.hash <$> TorrentInfo.pieces ti) = ph).
Proof.
  intros Hph Hparse.
  apply parse_torrent_inv in Hparse
    as (info' & pl & ph0 & [= <-] & _ & Hph0 & _ & _ & (n & _ & Hps) & _).
  rewrite Hph in Hph0. injection Hph0 as <-.
  assert (mjoin (Piece.hash <$> TorrentInfo.pieces ti)
          = take (20 * List.length (TorrentInfo.pieces ti)) ph) as Heq.
  { rewrite Hps, make_pieces_length.
    destruct (decide (0 ≤ n)).
    - rewrite <- (Z2Nat.id n) at 1 by done. apply make_pieces_hashes.
    - unfold TorrentService.make_pieces. rewrite seqZ_nil by lia.
      replace (Z.to_nat n) with 0%nat by lia. done. }
  split; [done|]. intros Hlen. rewrite Heq, <- Hlen. apply firstn_all.
Qed.

Lemma parsed_hashes_are_slices_witness :
  ∃ ti, TorrentService.parse_torrent Demo.sha1_bencode "demo" Demo.single = Some ti
        ∧ mjoin (Piece.hash <$> TorrentInfo.pieces ti) = replicate 60 x00.
Proof.
  eexists. split; [reflexivity|].
  refine (proj2 (parsed_hashes_are_slices Demo.sha1_bencode "demo"
                   Demo.single_info (replicate 60 x00) _ eq_refl eq_refl) eq_refl).
Defined.

(** ** When parsing fails *)

Lemma files_loop_none files_info offset acc :
  TorrentService.files_loop files_info offset acc = None
  ↔ Exists (λ f, FileDict.path f = []) files_info.
Proof.
  revert offset acc. induction files_info as [|fi rest IH]; intros offset acc; simpl.
  - split; [done|]. by intros ?%Exists_nil.
  - rewrite Exists_cons. destruct (FileDict.path fi) as [|x xs] eqn:Hp; simpl.
    + split; [by left|done].
    + rewrite IH. split; [by right|]. by intros [?|?].
Qed.

(** X5: [TorrentService.parse_torrent] answers [None] whenever the [info]
    dictionary is missing, [piece length] or [pieces] is missing,
    [piece length] is 0, a single-file torrent has no [length], or some
    file of a multi-file torrent has an empty path. *)
Theorem parse_torrent_fails_on sha1_bencode stem torrent_data :
  match Metainfo.info torrent_data with
  | None => True
  | Some info =>
      InfoDict.piece_length info = None
      ∨ InfoDict.piece_length info = Some 0
      ∨ InfoDict.pieces info = None
      ∨ match InfoDict.files info with
        | Some files_info => Exists (λ f, FileDict.path f = []) files_info
        | None => InfoDict.length info = None
        end
  end →
  TorrentService.parse_torrent sha1_bencode stem torrent_data = None.
Proof.
  unfold TorrentService.parse_torrent.
  destruct (Metainfo.info torrent_data) as [[[pl|] [ph|] [fi|] [len|] nm]|];
    simpl; try done.
  all: intros [[=]|[[= ->]|[[=]|H]]]; try done.
  all: try (destruct (Py.math_ceil_div _ pl); simpl; [|done]).
  all: apply (files_loop_none fi 0 []) in H; by rewrite H.
Qed.

Lemma parse_torrent_fails_on_witness :
  TorrentService.parse_torrent Demo.sha1_bencode "demo" EmptyPath.torrent = None.
Proof.
  apply (parse_torrent_fails_on Demo.sha1_bencode "demo" EmptyPath.torrent).
  right. right. right. simpl. right. by left.
Defined.

(** X6: A torrent that passes [validate_torrent_file] still fails to
    parse when its piece length is 0 or one of its files has an empty
    path. *)
Theorem validated_torrent_can_fail sha1_bencode stem torrent_data info :
  Metainfo.info torrent_data = Some info →
  TorrentService.validate_torrent_file torrent_data = true →
  InfoDict.piece_length info = Some 0
  ∨ (∃ files_info, InfoDict.files info = Some files_info
                   ∧ Exists (λ f, FileDict.path f = []) files_info) →
  TorrentService.parse_torrent sha1_bencode stem torrent_data = None.
Proof.
  intros Hinfo _ Hcause. unfold TorrentService.parse_torrent.
  rewrite Hinfo. simpl.
  destruct info as [[pl|] [ph|] [fi|] [len|] nm]; simpl in *; try done.
  all: destruct Hcause as [[= ->]|(fi' & [= <-] & H)]; try done.
  all: try (destruct (Py.math_ceil_div _ pl); simpl; [|done]).
  all: apply (files_loop_none fi 0 []) in H; by rewrite H.
Qed.

Lemma validated_torrent_can_fail_witness :
  TorrentService.validate_torrent_file ZeroPiece.torrent = true
  ∧ TorrentService.validate_torrent_file EmptyPath.torrent = true
  ∧ TorrentService.parse_torrent Demo.sha1_bencode "demo" ZeroPiece.torrent = None
  ∧ TorrentService.parse_torrent Demo.sha1_bencode "demo" EmptyPath.torrent = None.
Proof.
  split; [reflexivity|]. split; [reflexivity|]. split.
  - apply (validated_torrent_can_fail Demo.sha1_bencode "demo"
             ZeroPiece.torrent ZeroPiece.info eq_refl eq_refl).
    by left.
  - apply (validated_torrent_can_fail Demo.sha1_bencode "demo"
             EmptyPath.torrent EmptyPath.info eq_refl eq_refl).
    right. eexists. split; [reflexivity|]. right. by left.
Defined.

(** ** The two parsers side by side *)

Lemma app_new_keeps disk torrent_id name total_size pieces download_dir
    settings is_multi_file :
  let d := App.Download.new disk torrent_id name total_size pieces download_dir
             settings is_multi_file in
  App.Download.name d = name ∧ App.Download.settings d = settings
  ∧ App.Download.download_dir d = download_dir
  ∧ App.Download.download_folder d = Path.join download_dir torrent_id
  ∧ App.Download.state_file d
    = Path.join (Path.join download_dir torrent_id) "state.json"
  ∧ App.Download.downloading d = false ∧ App.Download.paused d = false.
Proof.
  unfold App.Download.new, App.Download.load_state. simpl.
  by destruct (_ !! _).
Qed.

(** X7: [parse_torrent] of [app.py], past its check for a registered id,
    succeeds on exactly the metadata [TorrentService.parse_torrent]
    accepts, and the download it registers carries the name, total size,
    pieces, files and multi-file flag of the layered [TorrentInfo]. *)
Theorem versions_parse_alike sha1_bencode stem info torrent_id settings c w :
  match TorrentService.parse_torrent sha1_bencode stem (Metainfo.mk (Some info)),
        App.BitTorrentClient.parse_new stem info torrent_id settings c w with
  | Some ti, Some (c', w') =>
      ∃ d, App.BitTorrentClient.downloads c' !! torrent_id = Some d
           ∧ App.Download.torrent_id d = torrent_id
           ∧ App.Download.name d = TorrentInfo.name ti
           ∧ App.Download.total_size d = TorrentInfo.total_size ti
           ∧ App.Download.pieces d = TorrentInfo.pieces ti
           ∧ App.Download.files d = TorrentInfo.files ti
           ∧ App.Download.is_multi_file d = TorrentInfo.is_multi_file ti
  | None, None => True
  | _, _ => False
  end.
Proof.
  unfold TorrentService.parse_torrent, App.BitTorrentClient.parse_new,
    App.Download.add_files.
  destruct info as [[pl|] [ph|] [fi|] [len|] nm]; simpl; try done.
  all: destruct (Py.math_ceil_div _ pl) as [num_pieces|]; simpl; try done.
  all: match goal with |- context [App.Download.new ?a ?b ?c ?d ?e ?f ?g ?h] =>
         pose proof (app_new_descriptor a b c d e f g h) as (Hf & Hm & Ht & Hp & Hid);
         pose proof (app_new_keeps a b c d e f g h) as (Hn & _);
         set (d0 := App.Download.new a b c d e f g h) in *
       end.
  all: try (rewrite Hf; destruct (TorrentService.files_loop fi 0 []) as [fs|];
            simpl; [|done];
            exists (App.Download.set_files fs d0); simpl;
            by rewrite lookup_insert_eq).
  all: exists d0; simpl; by rewrite lookup_insert_eq.
Qed.

(** ** The state machine as a whole *)

Lemma control_coherent c st :
  coherent st.1 → Download.state st.1 ≠ Download.CompletedState →
  let d' := (control c st).1.1 in
  coherent d' ∧ Download.state d' ≠ Download.CompletedState
  ∧ Download.completed d' = Download.completed st.1
  ∧ Download.downloaded_pieces d' = Download.downloaded_pieces st.1
  ∧ Download.downloaded_size d' = Download.downloaded_size st.1.
Proof.
  destruct st as [d disk]. unfold coherent, control. simpl.
  unfold Download.start_download, Download.pause_download,
    Download.resume_download, Download.stop_download, Download.state_start,
    Download.state_pause, Download.state_resume, Download.state_stop.
  intros Hc Hs.
  destruct c, (Download.state d) eqn:Hst; simpl in *;
    try done; destruct Hc as [Hd Hp];
    repeat match goal with
           | |- context [if ?b then _ else _] => destruct b eqn:?; simpl in *
           end;
    rewrite ?Hst, ?Hd, ?Hp in *; simpl in *; try done; try congruence.
Qed.

Lemma controls_invariant cs d disk :
  coherent d → Download.state d ≠ Download.CompletedState →
  let d' := (controls cs (d, disk)).1 in
  coherent d' ∧ Download.state d' ≠ Download.CompletedState
  ∧ Download.completed d' = Download.completed d
  ∧ Download.downloaded_pieces d' = Download.downloaded_pieces d
  ∧ Download.downloaded_size d' = Download.downloaded_size d.
Proof.
  unfold controls. revert d disk.
  induction cs as [|c cs IH]; intros d disk Hc Hs; simpl; [done|].
  destruct (control_coherent c (d, disk) Hc Hs) as (Hc' & Hs' & H1 & H2 & H3).
  destruct (control c (d, disk)) as [[d1 disk1] ok]. simpl in *.
  destruct (IH d1 disk1 Hc' Hs') as (? & ? & ? & ? & ?).
  repeat split; congruence.
Qed.

(** X8: A download that is only driven through its own [start_download],
    [pause_download], [resume_download] and [stop_download] keeps its
    flags in step with its state object, never reaches [CompletedState]
    (no method assigns it), and keeps its progress fields. *)
Theorem controls_keep_coherent (cs : list Control) disk torrent_id name
    total_size pieces download_dir settings is_multi_file :
  let d0 := Download.new disk torrent_id name total_size pieces download_dir
              settings is_multi_file in
  let d := (controls cs (d0, disk)).1 in
  coherent d
  ∧ Download.state d ≠ Download.CompletedState
  ∧ Download.completed d = Download.completed d0
  ∧ Download.downloaded_pieces d = Download.downloaded_pieces d0
  ∧ Download.downloaded_size d = Download.downloaded_size d0.
Proof.
  intros d0 d. apply controls_invariant.
  - subst d0. unfold coherent, Download.new, Download.load_state. simpl.
    by destruct (_ !! _).
  - subst d0. unfold Download.new, Download.load_state. simpl.
    by destruct (_ !! _).
Qed.

(** X9: An operation of the state machine that has just succeeded is
    rejected when it is asked for a second time in a row. *)
Theorem repeated_operation_rejected (e : StateMachineSpec.Event) (d : Download.t) :
  (StateMachineSpec.operation e d).2 = true →
  StateMachineSpec.operation e (StateMachineSpec.operation e d).1
  = ((StateMachineSpec.operation e d).1, false).
Proof.
  unfold StateMachineSpec.operation, Download.state_start, Download.state_pause,
    Download.state_resume, Download.state_stop.
  destruct e, (Download.state d); simpl; done.
Qed.

Lemma repeated_operation_rejected_witness :
  let d1 := (StateMachineSpec.operation StateMachineSpec.EvStart Small.layered).1 in
  StateMachineSpec.operation StateMachineSpec.EvStart d1 = (d1, false).
Proof.
  exact (repeated_operation_rejected StateMachineSpec.EvStart Small.layered eq_refl).
Defined.

(** X10: While the flags agree with the state object, the guards of
    [pause_download] and [resume_download] never reject a call the state
    object would accept: the methods answer what the state object
    answers. *)
Theorem guards_follow_state (d : Download.t) :
  coherent d →
  Download.pause_download d = Download.state_pause d
  ∧ Download.resume_download d = Download.state_resume d.
Proof.
  unfold coherent, Download.pause_download, Download.resume_download,
    Download.state_pause, Download.state_resume.
  destruct (Download.state d); simpl.
  - intros [-> ->]. done.
  - intros [-> ->]. done.
  - intros [-> ->]. done.
  - intros _. by destruct (Download.downloading d), (Download.paused d).
Qed.

Lemma guards_follow_state_witness :
  Download.pause_download Small.layered = Download.state_pause Small.layered
  ∧ Download.resume_download Small.layered = Download.state_resume Small.layered.
Proof.
  apply (guards_follow_state Small.layered). vm_compute. done.
Defined.

(** ** What the constructor brings back from disk *)

Lemma new_paths disk torrent_id name total_size pieces download_dir
    settings is_multi_file :
  let d := Download.new disk torrent_id name total_size pieces download_dir
             settings is_multi_file in
  Download.download_dir d = download_dir
  ∧ Download.download_folder d = Path.join download_dir torrent_id
  ∧ Download.state_file d
    = Path.join (Path.join download_dir torrent_id) "state.json"
  ∧ Download.name d = name ∧ Download.settings d = settings
  ∧ Download.state d = Download.StoppedState
  ∧ Download.downloading d = false ∧ Download.paused d = false.
Proof.
  unfold Download.new, Download.load_state. simpl.
  by destruct (_ !! _).
Qed.

(** X11: Constructing a download for the same directory and id over a disk
    on which [save_state] has written brings back [downloaded_pieces],
    [downloaded_size] and [completed], and sets [download_progress] to
    the share of recorded pieces; the download comes up stopped and
    without files, so no selection is applied by the constructor. *)
Theorem constructor_restores_progress (d : Download.t) disk name total_size
    pieces settings is_multi_file :
  Download.state_file d
  = Path.join (Path.join (Download.download_dir d) (Download.torrent_id d))
      "state.json" →
  let d' := Download.new (Download.save_state d disk) (Download.torrent_id d)
              name total_size pieces (Download.download_dir d) settings
              is_multi_file in
  Download.downloaded_pieces d' = Download.downloaded_pieces d
  ∧ Download.downloaded_size d' = Download.downloaded_size d
  ∧ Download.completed d' = Download.completed d
  ∧ Download.download_progress d'
    = Download.loaded_progress (Download.downloaded_pieces d) pieces
  ∧ Download.files d' = []
  ∧ Download.state d' = Download.StoppedState
  ∧ Download.downloading d' = false.
Proof.
  intros Hfile d'. subst d'.
  unfold Download.new, Download.load_state, Download.save_state. simpl.
  rewrite <- Hfile, lookup_insert_eq. simpl.
  rewrite list_to_set_elements_L. done.
Qed.

Lemma constructor_restores_progress_witness :
  let d := Download.set_downloaded_pieces {[0; 1]}
             (Download.set_downloaded_size 8 Small.layered) in
  let d' := Download.new (Download.save_state d ∅) Demo.torrent_id "small.bin"
              10 Small.pieces "downloads" DownloadSettings.default false in
  Download.downloaded_pieces d' = {[0; 1]}
  ∧ Download.downloaded_size d' = 8
  ∧ Download.completed d' = false.
Proof.
  intros d d'.
  destruct (constructor_restores_progress d ∅ "small.bin" 10 Small.pieces
              DownloadSettings.default false eq_refl)
    as (H1 & H2 & H3 & _).
  split; [exact H1|]. split; [exact H2|exact H3].
Defined.

(** ** Selecting files *)

Lemma select_first_paths p b fs :
  TorrentFile.path <$> Download.select_first p b fs = TorrentFile.path <$> fs.
Proof.
  induction fs as [|f fs IH]; [done|].
  cbn [Download.select_first].
  destruct (decide (TorrentFile.path f = p)); rewrite !fmap_cons; [done|].
  by rewrite IH.
Qed.

Lemma select_first_lookup p b fs (i : nat) f :
  NoDup (TorrentFile.path <$> fs) →
  fs !! i = Some f →
  Download.select_first p b fs !! i
  = Some (if decide (TorrentFile.path f = p)
          then TorrentFile.set_selected b f else f).
Proof.
  revert i. induction fs as [|g fs IH]; intros i Hnd Hi; simpl; [done|].
  apply NoDup_cons in Hnd as [Hg Hnd].
  destruct (decide (TorrentFile.path g = p)) as [Hgp|Hgp].
  - destruct i as [|i]; simpl in *.
    + injection Hi as <-. by rewrite decide_True.
    + rewrite Hi. rewrite decide_False; [done|].
      intros Hfp. apply Hg. rewrite Hgp, <- Hfp.
      apply list_elem_of_fmap. exists f. split; [done|].
      by eapply list_elem_of_lookup_2.
  - destruct i as [|i]; simpl in *.
    + injection Hi as <-. by rewrite decide_False.
    + by apply IH.
Qed.

Lemma select_all_lookup (file_selections : list (string * bool)) fs (i : nat) f :
  NoDup (TorrentFile.path <$> fs) →
  NoDup file_selections.*1 →
  fs !! i = Some f →
  foldl (λ fs kv, Download.select_first kv.1 kv.2 fs) fs file_selections !! i
  = Some (match (list_to_map file_selections : gmap string bool)
                !! TorrentFile.path f with
          | Some b => TorrentFile.set_selected b f
          | None => f
          end).
Proof.
  revert fs f. induction file_selections as [|[k v] rest IH];
    intros fs f Hnd Hkeys Hi; simpl.
  - by rewrite lookup_empty.
  - apply NoDup_cons in Hkeys as [Hk Hkeys].
    pose proof (select_first_lookup k v fs i f Hnd Hi) as Hstep.
    rewrite (IH _ _ (eq_ind_r (λ l, NoDup l) Hnd (select_first_paths k v fs))
               Hkeys Hstep).
    f_equal. cbn [list_to_map foldr fst snd uncurry].
    destruct (decide (TorrentFile.path f = k)) as [Heq|Hne].
    + cbn [TorrentFile.set_selected TorrentFile.path]. rewrite Heq.
      rewrite lookup_insert_eq.
      by rewrite (not_elem_of_list_to_map_1 _ _ Hk).
    + by rewrite lookup_insert_ne.
Qed.

(** X12: [update_file_selection] on a download with pairwise distinct file
    paths: every file named in the dictionary gets the flag given for
    its path, every other file keeps its flag, no file is added, dropped
    or moved, and the state file then holds the new selection; the
    answer is [True]. *)
Theorem update_file_selection_sets_flags
    (file_selections : list (string * bool)) (d : Download.t)
    (disk : gmap string StateJson.t) :
  NoDup (TorrentFile.path <$> Download.files d) →
  NoDup file_selections.*1 →
  let '(d', disk', ok) := Download.update_file_selection file_selections d disk in
  ok = true
  ∧ List.length (Download.files d') = List.length (Download.files d)
  ∧ (∀ (i : nat) f, Download.files d !! i = Some f →
       Download.files d' !! i
       = Some (match (list_to_map file_selections : gmap string bool)
                     !! TorrentFile.path f with
               | Some b => TorrentFile.set_selected b f
               | None => f
               end))
  ∧ StateJson.file_selections <$> disk' !! Download.state_file d
    = Some (Some (Download.selections_of (Download.files d'))).
Proof.
  intros Hnd Hkeys. unfold Download.update_file_selection. simpl.
  split; [done|].
  assert (∀ (i : nat) f, Download.files d !! i = Some f →
            foldl (λ fs kv, Download.select_first kv.1 kv.2 fs)
              (Download.files d) file_selections !! i
            = Some (match (list_to_map file_selections : gmap string bool)
                          !! TorrentFile.path f with
                    | Some b => TorrentFile.set_selected b f
                    | None => f
                    end)) as Hlookup.
  { intros i f. by apply select_all_lookup. }
  split; [|split; [done|]].
  - clear Hlookup Hkeys Hnd. generalize (Download.files d) as fs.
    induction file_selections as [|[k v] rest IH]; intros fs; simpl; [done|].
    rewrite IH. rewrite <- (length_fmap TorrentFile.path), select_first_paths.
    by rewrite length_fmap.
  - unfold Download.save_state. simpl. by rewrite lookup_insert_eq.
Qed.

Lemma update_file_selection_sets_flags_witness :
  let '(d', _, _) :=
    Download.update_file_selection [("b"%string, false)] Small.multi_fresh ∅ in
  Download.files d' !! 1%nat
  = Some (TorrentFile.set_selected false (TorrentFile.new "b" 6 4)).
Proof.
  pose proof (update_file_selection_sets_flags [("b"%string, false)]
                Small.multi_fresh ∅) as H.
  destruct (Download.update_file_selection _ _ _) as [[d' disk'] ok].
  destruct H as (_ & _ & H & _).
  - apply (bool_decide_unpack _). vm_compute. exact I.
  - apply (bool_decide_unpack _). vm_compute. exact I.
  - exact (H 1%nat (TorrentFile.new "b" 6 4) eq_refl).
Defined.

(** ** Writing the files of a finished download *)

Section WriteFiles.

Variable content_of : string → Z → list byte.
Variable can_write : string → bool.





End WriteFiles.



(** ** An undisturbed run of the worker of [app.py] *)




Section AppUndisturbed.

Variable clock : Z → Q.







End AppUndisturbed.



(** ** Restarting the service *)

Lemma load_downloads_lookup download_dir (s : DownloadService.t) (w : World.t)
    torrent_id :
  DownloadService.downloads
    (DownloadService.new download_dir (DownloadService.save_downloads_state s w))
    !! torrent_id
  = d ← DownloadService.downloads s !! torrent_id;
    _ ← World.state_files w !! Download.state_file d;
    Some (DownloadService.load_download (World.state_files w) torrent_id
            (DownloadService.download_info d)).
Proof.
  unfold DownloadService.new, DownloadService.load_downloads,
    DownloadService.save_downloads_state. simpl.
  rewrite lookup_union, lookup_empty, map_lookup_imap, lookup_fmap.
  destruct (DownloadService.downloads s !! torrent_id) as [d|]; simpl; [|done].
  by destruct (World.state_files w !! Download.state_file d).
Qed.

(** X15: A service constructed over the index that [save_downloads_state]
    wrote holds exactly the downloads whose state file exists: a
    download that has not yet saved its state is not brought back. *)
Theorem restart_keeps_saved_downloads download_dir (s : DownloadService.t)
    (w : World.t) torrent_id :
  is_Some (DownloadService.get_download torrent_id
             (DownloadService.new download_dir
                (DownloadService.save_downloads_state s w)))
  ↔ ∃ d, DownloadService.get_download torrent_id s = Some d
         ∧ is_Some (World.state_files w !! Download.state_file d).
Proof.
  unfold DownloadService.get_download. rewrite load_downloads_lookup.
  destruct (DownloadService.downloads s !! torrent_id) as [d|]; simpl.
  - destruct (World.state_files w !! Download.state_file d) as [st|] eqn:Hst;
      simpl.
    + split; [|by eexists]. intros _. exists d. by rewrite Hst.
    + split; [by intros [? ?]|]. intros (d' & [= <-] & [? Hs]).
      by rewrite Hst in Hs.
  - split; [by intros [? ?]|]. by intros (? & ? & _).
Qed.

(** X16: What comes back for a download whose state file exists: name, total
    size, directory, settings and the multi-file flag from the index,
    the pieces without their data, [downloaded_pieces], [downloaded_size]
    and [completed] from the state file, and -- for a multi-file
    download -- the files with the [selected] flags of the index and
    [downloaded] cleared: the selection the state file records is not
    applied.  The download comes back stopped. *)
Theorem restart_restores_download download_dir (s : DownloadService.t)
    (w : World.t) torrent_id d st :
  DownloadService.get_download torrent_id s = Some d →
  Download.state_file d
  = Path.join (Path.join (Download.download_dir d) torrent_id) "state.json" →
  World.state_files w !! Download.state_file d = Some st →
  ∃ d',
    DownloadService.get_download torrent_id
      (DownloadService.new download_dir
         (DownloadService.save_downloads_state s w)) = Some d'
    ∧ Download.name d' = Download.name d
    ∧ Download.total_size d' = Download.total_size d
    ∧ Download.download_dir d' = Download.download_dir d
    ∧ Download.settings d' = Download.settings d
    ∧ Download.is_multi_file d' = Download.is_multi_file d
    ∧ Download.pieces d' = DownloadService.piece_to_dict <$> Download.pieces d
    ∧ Download.downloaded_pieces d'
      = list_to_set (default [] (StateJson.downloaded_pieces st))
    ∧ Download.downloaded_size d' = default 0 (StateJson.downloaded_size st)
    ∧ Download.completed d' = default false (StateJson.completed st)
    ∧ Download.files d'
      = (if Download.is_multi_file d
         then TorrentFile.set_downloaded false <$> Download.files d else [])
    ∧ Download.state d' = Download.StoppedState
    ∧ Download.downloading d' = false.
Proof.
  intros Hd Hfile Hst. unfold DownloadService.get_download in *.
  rewrite load_downloads_lookup, Hd. simpl. rewrite Hst. simpl.
  eexists. split; [reflexivity|].
  unfold DownloadService.load_download, DownloadService.download_info,
    Download.new, Download.load_state.
  cbn [IndexEntry.name IndexEntry.total_size IndexEntry.pieces
         IndexEntry.download_dir IndexEntry.settings IndexEntry.is_multi_file
         IndexEntry.files Download.state_file].
  rewrite <- Hfile, Hst.
  destruct (Download.is_multi_file d); simpl; done.
Qed.

Lemma restart_restores_download_witness :
  let s := DownloadService.mk "downloads"
             {[ Demo.torrent_id := Small.multi_fresh ]} in
  let w := World.set_state_files
             (Download.save_state Small.multi_saved ∅) World.empty in
  StateJson.file_selections (Download.state_dict Small.multi_saved)
  = Some {[ "a"%string := true; "b"%string := false ]}
  ∧ Download.files
      <$> DownloadService.get_download Demo.torrent_id
            (DownloadService.new "downloads"
               (DownloadService.save_downloads_state s w))
    = Some Small.files_fresh.
Proof.
  intros s w. split; [vm_compute; reflexivity|].
  destruct (restart_restores_download "downloads" s w Demo.torrent_id
              Small.multi_fresh (Download.state_dict Small.multi_saved))
    as (d' & Hget & _ & _ & _ & _ & _ & _ & _ & _ & _ & Hfiles & _).
  - vm_compute. reflexivity.
  - vm_compute. reflexivity.
  - vm_compute. reflexivity.
  - rewrite Hget. simpl. rewrite Hfiles. vm_compute. reflexivity.
Defined.

Lemma load_download_descriptor disk torrent_id (d : Download.t) :
  let d' := DownloadService.load_download disk torrent_id
              (DownloadService.download_info d) in
  Download.settings d' = Download.settings d
  ∧ Download.files d'
    = (if Download.is_multi_file d
       then TorrentFile.set_downloaded false <$> Download.files d else []).
Proof.
  unfold DownloadService.load_download, DownloadService.download_info,
    Download.new, Download.load_state.
  cbn [IndexEntry.name IndexEntry.total_size IndexEntry.pieces
         IndexEntry.download_dir IndexEntry.settings IndexEntry.is_multi_file
         IndexEntry.files Download.state_file].
  destruct (disk !! _); destruct (Download.is_multi_file d); simpl; done.
Qed.

(** X17: [update_download_settings] on a known download answers [True],
    leaves every other download of the registry as it was, and rewrites
    the index: a service constructed afterwards brings the download back
    with the new settings, provided its state file exists. *)
Theorem updated_settings_survive_restart download_dir (s : DownloadService.t)
    (w : World.t) torrent_id settings d :
  DownloadService.get_download torrent_id s = Some d →
  is_Some (World.state_files w !! Download.state_file d) →
  let r := DownloadService.update_download_settings torrent_id settings s w in
  r.2 = true
  ∧ Download.settings <$> DownloadService.get_download torrent_id r.1.1
    = Some settings
  ∧ (∀ other, other ≠ torrent_id →
       DownloadService.get_download other r.1.1
       = DownloadService.get_download other s)
  ∧ Download.settings
      <$> DownloadService.get_download torrent_id
            (DownloadService.new download_dir r.1.2)
    = Some settings.
Proof.
  intros Hd [st Hst] r. subst r.
  unfold DownloadService.update_download_settings. rewrite Hd.
  cbn [fst snd]. unfold DownloadService.get_download in *.
  split; [done|]. split.
  { cbn [DownloadService.downloads]. by rewrite lookup_insert_eq. }
  split.
  { intros other Hother. cbn [DownloadService.downloads].
    by rewrite lookup_insert_ne. }
  rewrite load_downloads_lookup. cbn [DownloadService.downloads].
  rewrite lookup_insert_eq. simpl. rewrite Hst. simpl.
  f_equal. apply load_download_descriptor.
Qed.

Lemma updated_settings_survive_restart_witness :
  let s := DownloadService.mk "downloads"
             {[ Demo.torrent_id := Small.multi_fresh ]} in
  let w := World.set_state_files
             (Download.save_state Small.multi_fresh ∅) World.empty in
  let settings :=
    DownloadSettings.mk 1024 0 50 100 30 60 false false true true (1 # 10000)%Q in
  let r := DownloadService.update_download_settings Demo.torrent_id settings s w in
  Download.settings
    <$> DownloadService.get_download Demo.torrent_id
          (DownloadService.new "downloads" r.1.2)
  = Some settings.
Proof.
  intros s w settings r.
  apply (updated_settings_survive_restart "downloads" s w Demo.torrent_id
           settings Small.multi_fresh).
  - vm_compute. reflexivity.
  - eexists. vm_compute. reflexivity.
Defined.

(** X18: [update_file_selection] of the service writes the selection into
    the state file of the download and answers [True], but leaves the
    index as it is: a service constructed over an index that was up to
    date before the call brings a multi-file download back with the
    flags its files had before the call. *)
Theorem selection_update_misses_index download_dir (s : DownloadService.t)
    (w : World.t) torrent_id file_selections d :
  DownloadService.get_download torrent_id s = Some d →
  Download.is_multi_file d = true →
  let w0 := DownloadService.save_downloads_state s w in
  let r := DownloadService.update_file_selection torrent_id file_selections
             s w0 in
  let updated := (Download.update_file_selection file_selections d
                    (World.state_files w)).1.1 in
  r.2 = true
  ∧ DownloadService.get_download torrent_id r.1.1 = Some updated
  ∧ StateJson.file_selections
      <$> World.state_files r.1.2 !! Download.state_file d
    = Some (Some (Download.selections_of (Download.files updated)))
  ∧ World.index_file r.1.2 = World.index_file w0
  ∧ Download.files
      <$> DownloadService.get_download torrent_id
            (DownloadService.new download_dir r.1.2)
    = Some (TorrentFile.set_downloaded false <$> Download.files d).
Proof.
  intros Hd Hmulti w0 r updated. subst r updated w0.
  unfold DownloadService.update_file_selection. rewrite Hd.
  unfold Download.update_file_selection. cbn [fst snd].
  unfold DownloadService.get_download in *.
  split; [done|]. split.
  { cbn [DownloadService.downloads]. by rewrite lookup_insert_eq. }
  split.
  { unfold Download.save_state. simpl. by rewrite lookup_insert_eq. }
  split; [done|].
  match goal with |- context [World.set_state_files ?disk _] =>
    change (World.set_state_files disk (DownloadService.save_downloads_state s w))
      with (DownloadService.save_downloads_state s (World.set_state_files disk w))
  end.
  rewrite load_downloads_lookup, Hd.
  cbn [mbind option_bind World.state_files World.set_state_files].
  unfold Download.save_state.
  cbn [Download.state_file Download.set_files].
  rewrite lookup_insert_eq. cbn [mbind option_bind fmap option_fmap option_map].
  f_equal.
  match goal with |- context [DownloadService.load_download ?disk _ _] =>
    destruct (load_download_descriptor disk torrent_id d) as [_ Hfiles]
  end.
  cbv zeta in Hfiles. rewrite Hfiles, Hmulti. done.
Qed.

Lemma selection_update_misses_index_witness :
  let s := DownloadService.mk "downloads"
             {[ Demo.torrent_id := Small.multi_fresh ]} in
  let r := DownloadService.update_file_selection Demo.torrent_id
             [("b"%string, false)] s
             (DownloadService.save_downloads_state s World.empty) in
  TorrentFile.selected <$> (DownloadService.get_download Demo.torrent_id r.1.1
                              ≫= λ d, Download.files d !! 1%nat)
  = Some false
  ∧ Download.files
      <$> DownloadService.get_download Demo.torrent_id
            (DownloadService.new "downloads" r.1.2)
    = Some Small.files_fresh.
Proof.
  intros s r.
  destruct (selection_update_misses_index "downloads" s World.empty
              Demo.torrent_id [("b"%string, false)] Small.multi_fresh)
    as (_ & Hget & _ & _ & Hfiles).
  - vm_compute. reflexivity.
  - vm_compute. reflexivity.
  - split.
    + subst r. rewrite Hget. vm_compute. reflexivity.
    + subst r. rewrite Hfiles. vm_compute. reflexivity.
Defined.

(** ** Removing a download *)

(** X19: [remove_download] answers [False] for an unknown id and changes
    nothing.  For a known id it answers [True]: the id is gone from the
    registry, every other download stays, nothing is left below the
    folder of the download, and a service constructed afterwards does
    not bring the download back. *)
Theorem removed_download_is_forgotten download_dir (s : DownloadService.t)
    (w : World.t) tasks torrent_id :
  let r := DownloadService.remove_download torrent_id s w tasks in
  match DownloadService.get_download torrent_id s with
  | None => r = (s, w, tasks, false)
  | Some d =>
      r.2 = true
      ∧ DownloadService.get_download torrent_id r.1.1.1 = None
      ∧ (∀ other, other ≠ torrent_id →
           DownloadService.get_download other r.1.1.1
           = DownloadService.get_download other s)
      ∧ (∀ path,
           String.prefix (Download.download_folder d +:+ "/") path = true →
           World.out_files r.1.1.2 !! path = None
           ∧ World.state_files r.1.1.2 !! path = None)
      ∧ DownloadService.get_download torrent_id
          (DownloadService.new download_dir r.1.1.2) = None
  end.
Proof.
  intros r. subst r. unfold DownloadService.remove_download.
  destruct (DownloadService.get_download torrent_id s) as [d|] eqn:Hd; [|done].
  cbn [fst snd]. unfold DownloadService.get_download in *.
  split; [done|]. split.
  { cbn [DownloadService.downloads]. by rewrite lookup_delete_eq. }
  split.
  { intros other Hother. cbn [DownloadService.downloads].
    by rewrite lookup_delete_ne. }
  split.
  { intros path Hpath. unfold World.rmtree. simpl.
    split; apply map_lookup_filter_None; right; intros x _; simpl;
      by rewrite Hpath. }
  rewrite load_downloads_lookup. cbn [DownloadService.downloads].
  by rewrite lookup_delete_eq.
Qed.

(** ** An undisturbed run of the layered worker *)

Section LayeredUndisturbed.

Variable clock : nat → Q.

Lemma download_piece_fields k piece d :
  let d' := DownloadWorker._download_piece clock k piece d in
  Download.pieces d' = <[k := marked piece]> (Download.pieces d)
  ∧ Download.downloaded_size d' = Download.downloaded_size d + Piece.size piece
  ∧ Download.downloaded_pieces d' = Download.downloaded_pieces d.
Proof.
  unfold DownloadWorker._download_piece. cbv zeta.
  cbn [Download.start_time Download.set_downloaded_size Download.set_pieces].
  destruct (Download.start_time d) as [t|]; [|done].
  destruct (Qeq_dec t 0); [done|]. by destruct (Qlt_le_dec _ _).
Qed.

Lemma process_piece_counts w0 d0 total_pieces (k : nat) p r :
  Download.pieces d0 !! k = Some p →
  counted_up_to w0 d0 k r →
  counted_up_to w0 d0 (S k) (DownloadWorker.process_piece clock total_pieces k p r).
Proof.
  intros Hk (Hw & Hc & Hp & Hsz & Hset).
  unfold DownloadWorker.process_piece, counted_up_to. cbv zeta.
  cbn [DownloadWorker.worker DownloadWorker.download
         DownloadWorker.downloaded_count Download.pieces
         Download.downloaded_size Download.downloaded_pieces
         Download.set_download_progress Download.set_downloaded_pieces].
  destruct (download_piece_fields k p (DownloadWorker.download r))
    as (Hp' & Hsz' & Hset').
  cbv zeta in Hp', Hsz', Hset'. rewrite Hp', Hsz', Hset'.
  assert ((k < List.length (Download.pieces d0))%nat) as Hlen
    by by eapply lookup_lt_Some.
  split; [done|]. split; [lia|]. split.
  { rewrite Hp, insert_app_r_alt by (rewrite length_fmap, length_take; lia).
    rewrite length_fmap, length_take_le, Nat.sub_diag by lia.
    rewrite (drop_S _ _ _ Hk). cbn [insert list_insert].
    rewrite (take_S_r _ _ _ Hk), fmap_app, <- app_assoc. done. }
  split.
  { rewrite Hsz, (take_S_r _ _ _ Hk), fmap_app, sum_app. simpl.
    rewrite sum_cons, sum_nil. lia. }
  rewrite Hset, (take_S_r _ _ _ Hk), fmap_app, list_to_set_app_L. simpl.
  rewrite union_empty_r_L, (comm_L (∪) {[_]}), <- (assoc_L (∪)). done.
Qed.

Lemma batch_loop_counts w0 d0 total_pieces batch_pieces (k : nat) r rest :
  DownloadWorker.stopped w0 = false →
  drop k (Download.pieces d0) = batch_pieces ++ rest →
  counted_up_to w0 d0 k r →
  counted_up_to w0 d0 (k + List.length batch_pieces)
    (DownloadWorker.batch_loop clock (λ _, false) total_pieces k batch_pieces r).
Proof.
  intros Hw0. revert k r.
  induction batch_pieces as [|p bp IH]; intros k r Hdrop Hinv.
  - simpl. by rewrite Nat.add_0_r.
  - cbn [DownloadWorker.batch_loop]. unfold DownloadWorker.observe.
    pose proof Hinv as (Hw & _). rewrite Hw, Hw0.
    assert (Download.pieces d0 !! k = Some p) as Hk.
    { rewrite <- (Nat.add_0_r k), <- lookup_drop, Hdrop. done. }
    replace (k + List.length (p :: bp))%nat with (S k + List.length bp)%nat
      by (simpl; lia).
    apply IH.
    + rewrite (drop_S _ _ _ Hk) in Hdrop. by injection Hdrop.
    + by apply process_piece_counts.
Qed.

Lemma layered_save_run_counts w0 d0 k r :
  counted_up_to w0 d0 k r → counted_up_to w0 d0 k (DownloadWorker.save_run r).
Proof. done. Qed.

Lemma batches_loop_counts w0 d0 (m j : nat) r :
  let n := List.length (Download.pieces d0) in
  DownloadWorker.stopped w0 = false →
  ((j + m) * 20 < n + 20)%nat →
  counted_up_to w0 d0 (Nat.min (j * 20) n) r →
  counted_up_to w0 d0 (Nat.min ((j + m) * 20) n)
    (DownloadWorker.batches_loop clock (λ _, false) (Z.of_nat n)
       Config.BATCH_SIZE
       ((λ k, k * Config.BATCH_SIZE) <$> seqZ (Z.of_nat j) (Z.of_nat m)) r).
Proof.
  intros n Hw0. revert j r.
  induction m as [|m IH]; intros j r Hjm Hinv.
  - by rewrite Nat.add_0_r.
  - rewrite seqZ_cons by lia.
    replace (Z.succ (Z.of_nat j)) with (Z.of_nat (S j)) by lia.
    replace (Z.pred (Z.of_nat (S m))) with (Z.of_nat m) by lia.
    replace (j + S m)%nat with (S j + m)%nat by lia.
    pose proof Hinv as (Hw & _ & Hp & _).
    rewrite fmap_cons. cbn [DownloadWorker.batches_loop].
    unfold DownloadWorker.observe. rewrite Hw, Hw0.
    change Config.BATCH_SIZE with 20.
    rewrite Nat.min_l in Hinv, Hp by lia.
    replace (Z.to_nat (Z.of_nat j * 20)) with (j * 20)%nat by lia.
    match goal with |- context [DownloadWorker.batch_loop ?a ?b ?c ?k ?l ?x] =>
      assert (counted_up_to w0 d0 (Nat.min (S j * 20) n)
                (DownloadWorker.batch_loop a b c k l x)) as Hb
    end.
    { rewrite slice_nonneg by lia. rewrite Hp.
      replace (Z.to_nat (Z.of_nat j * 20)) with (j * 20)%nat by lia.
      rewrite drop_app_length'
        by (rewrite length_fmap, length_take; fold n; lia).
      set (len := (Z.to_nat (Z.min (Z.of_nat j * 20 + 20) (Z.of_nat n))
                   - j * 20)%nat).
      replace (Nat.min (S j * 20) n)
        with (j * 20
              + List.length (take len (drop (j * 20) (Download.pieces d0))))%nat.
      2:{ rewrite length_take, length_drop. fold n. lia. }
      eapply batch_loop_counts; [done| |done].
      symmetry. apply take_drop. }
    destruct (decide _); apply IH; try lia; try done.
Qed.

Lemma complete_download_download content_of can_write (r : DownloadWorker.run) :
  let r' := DownloadWorker._complete_download content_of can_write r in
  DownloadWorker.download r'
  = Download.set_download_progress 100%Q
      (Download.set_downloading false
         (Download.set_completed true (DownloadWorker.download r)))
  ∧ DownloadWorker.downloaded_count r' = DownloadWorker.downloaded_count r.
Proof.
  unfold DownloadWorker._complete_download. cbv zeta.
  destruct (_ && _).
  - destruct (DownloadWorker.selected_files_info _); [done|].
    by destruct (FileService.write_files _ _ _ _ _ _) as [? ?].
  - by destruct (can_write _).
Qed.
End LayeredUndisturbed.

(** X20: A run of the layered worker during which no stop request arrives,
    whatever the download has recorded before: it passes over no piece.
    Every piece of the list is marked, its index is added to
    [downloaded_pieces] and its size to [downloaded_size] -- on top of
    what was there --, the count of the run is the number of pieces, and
    the download ends completed, not downloading, with a progress of
    100; the worker is no longer running. *)
Theorem layered_run_counts_every_piece
    (content_of : string → Z → list byte) (can_write : string → bool)
    (clock : nat → Q) (w : DownloadWorker.t) (d : Download.t) (wd : World.t) :
  DownloadWorker.stopped w = false →
  let r := DownloadWorker._download_worker content_of can_write clock
             (λ _, false) w d wd in
  let final := DownloadWorker.download r in
  DownloadWorker.downloaded_count r = Z.of_nat (List.length (Download.pieces d))
  ∧ Download.pieces final = marked <$> Download.pieces d
  ∧ Download.downloaded_pieces final
    = Download.downloaded_pieces d
      ∪ list_to_set (Piece.index <$> Download.pieces d)
  ∧ Download.downloaded_size final
    = Download.downloaded_size d + Py.sum (Piece.size <$> Download.pieces d)
  ∧ Download.completed final = true
  ∧ Download.downloading final = false
  ∧ Download.download_progress final = 100%Q
  ∧ DownloadWorker.running (DownloadWorker.worker r) = false.
Proof.
  intros Hw r final.
  set (n := List.length (Download.pieces d)) in *.
  set (m := Z.to_nat (- (- Z.of_nat n / 20))).
  assert (Z.of_nat m = - (- Z.of_nat n / 20)) as Hm.
  { subst m. pose proof (Z.div_mod (- Z.of_nat n) 20 ltac:(lia)).
    pose proof (Z.mod_pos_bound (- Z.of_nat n) 20 ltac:(lia)). lia. }
  assert (Nat.min ((0 + m) * 20) n = n ∧ ((0 + m) * 20 < n + 20)%nat)
    as [Hmn Hlt].
  { pose proof (Z.div_mod (- Z.of_nat n) 20 ltac:(lia)).
    pose proof (Z.mod_pos_bound (- Z.of_nat n) 20 ltac:(lia)). lia. }
  assert (counted_up_to w d (Nat.min (0 * 20) n)
            (DownloadWorker.mkrun w d 0 wd)) as Hinit.
  { unfold counted_up_to. simpl. rewrite drop_0, sum_nil, union_empty_r_L.
    split; [done|]. split; [done|]. split; [done|]. split; [lia|done]. }
  pose proof (batches_loop_counts clock w d m 0 _ Hw Hlt Hinit) as Hloop.
  cbv zeta in Hloop. fold n in Hloop. rewrite Hmn, Hm in Hloop.
  match type of Hloop with counted_up_to _ _ _ ?x => set (looped := x) in * end.
  subst final r. unfold DownloadWorker._download_worker. cbv zeta.
  match goal with |- context [DownloadWorker.batches_loop ?a ?b ?c ?t ?s ?x] =>
    change (DownloadWorker.batches_loop a b c t s x) with looped
  end.
  destruct Hloop as (Hwk & Hc & Hp & Hsz & Hset).
  unfold DownloadWorker.observe. rewrite Hwk, Hw.
  destruct (complete_download_download content_of can_write looped) as [Hd Hcount].
  cbv zeta in Hd, Hcount.
  cbn [DownloadWorker.download DownloadWorker.downloaded_count
         DownloadWorker.worker DownloadWorker.running].
  rewrite Hd, Hcount. simpl.
  rewrite Hc, Hp, Hsz, Hset.
  rewrite take_ge, drop_ge, app_nil_r by (fold n; lia). done.
Qed.

Lemma layered_run_counts_every_piece_witness :
  let d := Download.set_downloaded_pieces {[0]}
             (Download.set_downloaded_size 4 Small.layered) in
  let r := DownloadWorker._download_worker Demo.content_of
             Demo.always_writable (λ _, 11%Q) (λ _, false)
             (DownloadWorker.mk true false false) d World.empty in
  Download.downloaded_size (DownloadWorker.download r) = 14
  ∧ Download.completed (DownloadWorker.download r) = true.
Proof.
  intros d r.
  destruct (layered_run_counts_every_piece Demo.content_of
              Demo.always_writable (λ _, 11%Q)
              (DownloadWorker.mk true false false) d World.empty eq_refl)
    as (_ & _ & _ & Hsz & Hc & _).
  split; [|exact Hc]. subst r. rewrite Hsz. vm_compute. reflexivity.
Defined.

(** ** Runs that do not complete *)

Section LayeredQuiet.

Variable lclock : nat → Q.
Variable lstop_req : nat → bool.

Lemma layered_quiet_trans r1 r2 r3 :
  layered_quiet r1 r2 → layered_quiet r2 r3 → layered_quiet r1 r3.
Proof. intros [? ?] [? ?]. split; congruence. Qed.

Lemma layered_observe_quiet k r :
  layered_quiet r (DownloadWorker.observe lstop_req k r).
Proof. unfold DownloadWorker.observe. by destruct (lstop_req k). Qed.

Lemma layered_process_piece_quiet total_pieces k p r :
  layered_quiet r (DownloadWorker.process_piece lclock total_pieces k p r).
Proof.
  unfold layered_quiet, DownloadWorker.process_piece,
    DownloadWorker._download_piece. cbv zeta.
  cbn [Download.start_time Download.set_downloaded_size Download.set_pieces].
  destruct (Download.start_time _) as [t|]; [|done].
  destruct (Qeq_dec t 0); [done|]. by destruct (Qlt_le_dec _ _).
Qed.

Lemma layered_batch_loop_quiet total_pieces bp k r :
  layered_quiet r
    (DownloadWorker.batch_loop lclock lstop_req total_pieces k bp r).
Proof.
  revert k r. induction bp as [|p bp IH]; intros k r; [done|].
  cbn [DownloadWorker.batch_loop].
  pose proof (layered_observe_quiet k r) as Ho.
  destruct (DownloadWorker.stopped _); [done|].
  eapply layered_quiet_trans; [exact Ho|].
  eapply layered_quiet_trans; [|apply IH].
  apply layered_process_piece_quiet.
Qed.

Lemma layered_batches_loop_quiet total_pieces batch_size starts r :
  layered_quiet r
    (DownloadWorker.batches_loop lclock lstop_req total_pieces batch_size
       starts r).
Proof.
  revert r. induction starts as [|i starts IH]; intros r; [done|].
  cbn [DownloadWorker.batches_loop].
  pose proof (layered_observe_quiet (Z.to_nat i) r) as Ho.
  destruct (DownloadWorker.stopped _); [done|].
  eapply layered_quiet_trans; [exact Ho|].
  eapply layered_quiet_trans; [apply layered_batch_loop_quiet|].
  destruct (decide _); [|apply IH].
  eapply layered_quiet_trans; [|apply IH]. done.
Qed.
End LayeredQuiet.

(** X21: Whatever stop requests arrive, a run of the layered worker that
    leaves the download not completed was stopped, has written no output
    file, and began with a download that was not completed: output files
    are written only on the way to [completed]. *)
Theorem layered_unfinished_run_writes_nothing
    (content_of : string → Z → list byte) (can_write : string → bool)
    (clock : nat → Q) (stop_req : nat → bool)
    (w : DownloadWorker.t) (d : Download.t) (wd : World.t) :
  let r := DownloadWorker._download_worker content_of can_write clock
             stop_req w d wd in
  Download.completed (DownloadWorker.download r) = false →
  DownloadWorker.stopped (DownloadWorker.worker r) = true
  ∧ World.out_files (DownloadWorker.world r) = World.out_files wd
  ∧ Download.completed d = false.
Proof.
  intros r. subst r. unfold DownloadWorker._download_worker. cbv zeta.
  match goal with |- context [DownloadWorker.batches_loop ?a ?b ?c ?t ?s ?x] =>
    pose proof (layered_batches_loop_quiet a b c t s x) as Hloop;
    set (looped := DownloadWorker.batches_loop a b c t s x) in *
  end.
  pose proof (layered_observe_quiet stop_req
                (List.length (Download.pieces d)) looped) as Ho.
  destruct (layered_quiet_trans _ _ _ Hloop Ho) as [Hc Hout].
  cbn [DownloadWorker.download DownloadWorker.world] in Hc, Hout.
  destruct (DownloadWorker.stopped _) eqn:Hs.
  - cbn [DownloadWorker.download DownloadWorker.worker DownloadWorker.world
           DownloadWorker.stopped].
    intros Hfalse. split; [done|]. split; [done|]. by rewrite <- Hc.
  - destruct (complete_download_download content_of can_write
                (DownloadWorker.observe stop_req
                   (List.length (Download.pieces d)) looped)) as [Hd _].
    cbv zeta in Hd. cbn [DownloadWorker.download]. rewrite Hd. done.
Qed.

Lemma layered_unfinished_run_writes_nothing_witness :
  let r := DownloadWorker._download_worker Demo.content_of
             Demo.always_writable (λ _, 11%Q) (λ k, bool_decide (k = 1%nat))
             (DownloadWorker.mk true false false) Small.layered World.empty in
  DownloadWorker.downloaded_count r = 1
  ∧ DownloadWorker.stopped (DownloadWorker.worker r) = true
  ∧ World.out_files (DownloadWorker.world r) = ∅.
Proof.
  intros r. split; [vm_compute; reflexivity|].
  destruct (layered_unfinished_run_writes_nothing Demo.content_of
              Demo.always_writable (λ _, 11%Q) (λ k, bool_decide (k = 1%nat))
              (DownloadWorker.mk true false false) Small.layered World.empty)
    as (Hs & Hout & _).
  - vm_compute. reflexivity.
  - split; [exact Hs|exact Hout].
Defined.

Section AppQuiet.

Variable clock : Z → Q.
Variable stop_req : Z → bool.

Lemma app_quiet_trans r1 r2 r3 :
  app_quiet r1 r2 → app_quiet r2 r3 → app_quiet r1 r3.
Proof. intros [? ?] [? ?]. split; congruence. Qed.

Lemma app_observe_quiet i r : app_quiet r (App.Worker.observe stop_req i r).
Proof. unfold App.Worker.observe. by destruct (stop_req i). Qed.

Lemma app_process_piece_quiet file_data target i r :
  app_quiet r (App.Worker.process_piece clock file_data target i r).
Proof.
  unfold app_quiet, App.Worker.process_piece. cbv zeta.
  destruct (App.Download.pieces _ !! _) as [piece|]; [|done].
  destruct (decide (0 < target));
    cbn [App.Download.start_time App.Download.set_download_progress
           App.Download.set_downloaded_size App.Download.set_downloaded_pieces
           App.Download.set_pieces];
    (destruct (App.Download.start_time _); [|done]);
    by destruct (Qlt_le_dec _ _).
Qed.

Lemma app_batch_loop_quiet file_data target indices r :
  app_quiet r (App.Worker.batch_loop clock stop_req file_data target indices r).
Proof.
  revert r. induction indices as [|i rest IH]; intros r; [done|].
  cbn [App.Worker.batch_loop].
  destruct (App.Worker.raised r); [done|].
  destruct (decide _); [apply IH|].
  pose proof (app_observe_quiet i r) as Ho.
  destruct (negb _); [done|].
  eapply app_quiet_trans; [exact Ho|].
  eapply app_quiet_trans; [|apply IH].
  apply app_process_piece_quiet.
Qed.

Lemma app_batches_loop_quiet file_data target total_pieces starts r :
  app_quiet r
    (App.Worker.batches_loop clock stop_req file_data target total_pieces
       starts r).
Proof.
  revert r. induction starts as [|b starts IH]; intros r; [done|].
  cbn [App.Worker.batches_loop].
  destruct (App.Worker.raised r); [done|].
  pose proof (app_observe_quiet b r) as Ho.
  destruct (negb _); [done|].
  eapply app_quiet_trans; [exact Ho|].
  match goal with |- context [App.Worker.batch_loop ?a ?b ?c ?d ?e ?f] =>
    pose proof (app_batch_loop_quiet c d e f) as Hb;
    destruct (App.Worker.raised (App.Worker.batch_loop a b c d e f))
  end; [done|].
  eapply app_quiet_trans; [exact Hb|].
  eapply app_quiet_trans; [|apply IH]. done.
Qed.
End AppQuiet.

(** X22: The same for the worker of [app.py]: a run that leaves the download
    not completed has written no output file; it ended with an exception
    or with fewer recorded indices than there are pieces. *)
Theorem app_unfinished_run_writes_nothing
    (content_of : string → Z → list byte) (can_write : string → bool)
    (clock : Z → Q) (stop_req : Z → bool) (d : App.Download.t) (w : World.t) :
  let r := App.Worker._async_download_worker content_of can_write clock
             stop_req d w in
  App.Download.completed (App.Worker.download r) = false →
  World.out_files (App.Worker.world r) = World.out_files w
  ∧ App.Download.completed d = false
  ∧ (App.Worker.raised r = true
     ∨ Z.of_nat (size (App.Download.downloaded_pieces (App.Worker.download r)))
       ≠ Z.of_nat (List.length (App.Download.pieces d))).
Proof.
  intros r. subst r. unfold App.Worker._async_download_worker. cbv zeta.
  match goal with |- context [App.Worker.batches_loop ?a ?b ?c ?t ?n ?s ?x] =>
    destruct (app_batches_loop_quiet a b c t n s x) as [Hc Hout];
    set (looped := App.Worker.batches_loop a b c t n s x) in *
  end.
  cbn [App.Worker.download App.Worker.world] in Hc, Hout.
  destruct (App.Worker.raised looped) eqn:Hr.
  - simpl. intros Hfalse. split; [done|]. split; [congruence|]. by left.
  - destruct (decide (Z.of_nat (size _) = _)) as [Hall|Hmissing].
    + destruct (App.Worker._write_files_with_real_data _ _ _ _) as [d' w'].
      destruct (DownloadSettings.auto_stop _); simpl; discriminate.
    + simpl. intros Hfalse. split; [done|]. split; [congruence|]. by right.
Qed.

Lemma app_unfinished_run_writes_nothing_witness :
  let r := App.Worker._async_download_worker Demo.content_of
             Demo.always_writable (λ _, 11%Q) (λ i, bool_decide (i = 1))
             Started.app World.empty in
  App.Download.downloaded_pieces (App.Worker.download r) = {[0]}
  ∧ World.out_files (App.Worker.world r) = ∅.
Proof.
  intros r. split; [vm_compute; reflexivity|].
  destruct (app_unfinished_run_writes_nothing Demo.content_of
              Demo.always_writable (λ _, 11%Q) (λ i, bool_decide (i = 1))
              Started.app World.empty) as (Hout & _).
  - vm_compute. reflexivity.
  - exact Hout.
Defined.

(** ** The files cut from the combined data *)

Section WrittenContent.

Variable content_of : string → Z → list byte.
Variable can_write : string → bool.




End WrittenContent.



(** ** The files an undisturbed run leaves *)

Section AppSteady.

Variable can_write : string → bool.
Variable clock : Z → Q.
Variable stop_req : Z → bool.







End AppSteady.




Section LayeredSteady.

Variable clock : nat → Q.
Variable stop_req : nat → bool.





End LayeredSteady.



